(** * VISION assistant (app.py): retry wrapper, citation formatters, HTTP handler

    A shallow embedding of [app.py].  Python values that flow through the
    program all come from decoded JSON, so they are modelled by one type
    [json]; Python exceptions are values of [exn]; code that can raise lives
    in the error monad [py]; code that talks to the network or sleeps lives in
    [io], which also records a log of the effects performed.

    Scope of the value model: JSON numbers are integers (floating point is
    not modelled), a [str] is a sequence of code points below 256, and the
    field list of an object stands for the dict that maps each key to its
    first binding.  Of a post only the payload is recorded; the URL, the
    headers and the timeout are the same in every attempt. *)

From Stdlib Require Import ZArith String Ascii List.
From stdpp Require Import base decidable option list sets gmap strings pretty.

Open Scope Z_scope.
Set Warnings "-register-all,-clear-no-such-hyp".

(** ** Python values and exceptions *)

Inductive json : Type :=
| JNull
| JBool (b : bool)
| JInt (n : Z)
| JStr (s : string)
| JArr (items : list json)
| JObj (fields : list (string * json)).

(** The exception classes the program can tell apart: its handlers are
    [except requests.exceptions.RequestException] and [except Exception].
    [detail] is what [str(e)] gives.  Exceptions outside [Exception]
    ([KeyboardInterrupt], [SystemExit]) are not modelled. *)
Inductive exn : Type :=
| RequestException (detail : string)
| AttributeError (detail : string)
| IndexError (detail : string)
| KeyError (detail : string)
| TypeError (detail : string)
| OtherException (detail : string).

Definition exn_str (e : exn) : string :=
  match e with
  | RequestException d | AttributeError d | IndexError d
  | KeyError d | TypeError d | OtherException d => d
  end.

Definition is_RequestException (e : exn) : bool :=
  match e with RequestException _ => true | _ => false end.

Inductive py (A : Type) : Type :=
| Ok (a : A)
| Raise (e : exn).
Arguments Ok {A} a.
Arguments Raise {A} e.

#[global] Instance py_ret : MRet py := @Ok.
#[global] Instance py_bind : MBind py := λ A B f m,
  match m with Ok a => f a | Raise e => Raise e end.

(** ** Built-in operations of Python, on [json] values *)

Definition type_name (v : json) : string :=
  match v with
  | JNull => "NoneType"
  | JBool _ => "bool"
  | JInt _ => "int"
  | JStr _ => "str"
  | JArr _ => "list"
  | JObj _ => "dict"
  end.

(** [bool(v)] *)
Definition truthy (v : json) : bool :=
  match v with
  | JNull => false
  | JBool b => b
  | JInt n => negb (n =? 0)%Z
  | JStr s => negb (String.eqb s "")
  | JArr items => match items with [] => false | _ => true end
  | JObj fields => match fields with [] => false | _ => true end
  end.

Fixpoint dict_lookup (key : string) (fields : list (string * json)) : option json :=
  match fields with
  | [] => None
  | (k, v) :: rest => if String.eqb k key then Some v else dict_lookup key rest
  end.

Definition no_attribute (v : json) (attr : string) : exn :=
  AttributeError ("'" +:+ type_name v +:+ "' object has no attribute '" +:+ attr +:+ "'").

(** [obj.get(key, default)] *)
Definition py_get (obj : json) (key : string) (default : json) : py json :=
  match obj with
  | JObj fields => Ok (match dict_lookup key fields with Some v => v | None => default end)
  | _ => Raise (no_attribute obj "get")
  end.

Definition not_subscriptable (v : json) : exn :=
  TypeError ("'" +:+ type_name v +:+ "' object is not subscriptable").

(** [v[0]] *)
Definition py_first (v : json) : py json :=
  match v with
  | JArr [] => Raise (IndexError "list index out of range")
  | JArr (x :: _) => Ok x
  | JStr EmptyString => Raise (IndexError "string index out of range")
  | JStr (String c _) => Ok (JStr (String c EmptyString))
  | JObj _ => Raise (KeyError "0")
  | _ => Raise (not_subscriptable v)
  end.

(** [v[key]] for a string key *)
Definition py_item (v : json) (key : string) : py json :=
  match v with
  | JObj fields =>
      match dict_lookup key fields with
      | Some x => Ok x
      | None => Raise (KeyError ("'" +:+ key +:+ "'"))
      end
  | JArr _ => Raise (TypeError "list indices must be integers or slices, not str")
  | JStr _ => Raise (TypeError "string indices must be integers, not 'str'")
  | _ => Raise (not_subscriptable v)
  end.

(** [for x in v]: the elements the loop visits *)
Fixpoint chars (s : string) : list json :=
  match s with
  | EmptyString => []
  | String c rest => JStr (String c EmptyString) :: chars rest
  end.

Definition py_iter (v : json) : py (list json) :=
  match v with
  | JArr items => Ok items
  | JStr s => Ok (chars s)
  | JObj fields => Ok (map (λ kv, JStr kv.1) fields)
  | _ => Raise (TypeError ("'" +:+ type_name v +:+ "' object is not iterable"))
  end.

(** Set membership goes through [hash] and [==]: [True == 1], and lists and
    dicts cannot be hashed. *)
Inductive hkey : Type :=
| HNone
| HInt (n : Z)
| HStr (s : string).

#[global] Instance hkey_eq_dec : EqDecision hkey.
Proof. solve_decision. Defined.

#[global] Instance hkey_countable : Countable hkey.
Proof.
  refine (inj_countable'
    (λ k, match k with HNone => inl () | HInt n => inr (inl n) | HStr s => inr (inr s) end)
    (λ x, match x with inl _ => HNone | inr (inl n) => HInt n | inr (inr s) => HStr s end) _).
  by intros [].
Defined.

Definition py_hash (v : json) : py hkey :=
  match v with
  | JNull => Ok HNone
  | JBool b => Ok (HInt (if b then 1 else 0))
  | JInt n => Ok (HInt n)
  | JStr s => Ok (HStr s)
  | JArr _ | JObj _ => Raise (TypeError ("unhashable type: '" +:+ type_name v +:+ "'"))
  end.

(** [str.isspace] on one code point below 256 *)
Definition isspace (c : ascii) : bool :=
  let n := N_of_ascii c in
  ((9 <=? n) && (n <=? 13) || (28 <=? n) && (n <=? 32) || (n =? 133) || (n =? 160))%N.

Fixpoint lstrip (s : string) : string :=
  match s with
  | EmptyString => EmptyString
  | String c rest => if isspace c then lstrip rest else s
  end.

Fixpoint rstrip (s : string) : string :=
  match s with
  | EmptyString => EmptyString
  | String c rest =>
      match rstrip rest with
      | EmptyString => if isspace c then EmptyString else String c EmptyString
      | kept => String c kept
      end
  end.

Definition strip (s : string) : string := rstrip (lstrip s).

(** [v.strip()] *)
Definition py_strip (v : json) : py json :=
  match v with
  | JStr s => Ok (JStr (strip s))
  | _ => Raise (no_attribute v "strip")
  end.

(** [str(v)] and [repr(v)], used by f-strings *)
Definition dquote : ascii := "034".
Definition backslash : ascii := "\".

Fixpoint has_char (c : ascii) (s : string) : bool :=
  match s with
  | EmptyString => false
  | String d rest => Ascii.eqb c d || has_char c rest
  end.

Definition hex_digit (n : N) : ascii :=
  match n with
  | 0 => "0" | 1 => "1" | 2 => "2" | 3 => "3" | 4 => "4" | 5 => "5" | 6 => "6"
  | 7 => "7" | 8 => "8" | 9 => "9" | 10 => "a" | 11 => "b" | 12 => "c"
  | 13 => "d" | 14 => "e" | _ => "f"
  end%N%char.

Definition repr_char (quote c : ascii) : string :=
  let n := N_of_ascii c in
  if Ascii.eqb c quote || Ascii.eqb c backslash then String backslash (String c EmptyString)
  else if (n =? 9)%N then "\t"
  else if (n =? 10)%N then "\n"
  else if (n =? 13)%N then "\r"
  else if ((n <? 32) || (n =? 127) || (128 <=? n) && (n <=? 160) || (n =? 173))%N
       then "\x" +:+ String (hex_digit (n / 16)) (String (hex_digit (n mod 16)) EmptyString)
  else String c EmptyString.

Fixpoint repr_chars (quote : ascii) (s : string) : string :=
  match s with
  | EmptyString => EmptyString
  | String c rest => repr_char quote c +:+ repr_chars quote rest
  end.

Definition repr_str (s : string) : string :=
  let quote := if has_char "'" s && negb (has_char dquote s) then dquote else "'"%char in
  String quote (repr_chars quote s +:+ String quote EmptyString).

Fixpoint py_repr (v : json) : string :=
  match v with
  | JNull => "None"
  | JBool true => "True"
  | JBool false => "False"
  | JInt n => pretty n
  | JStr s => repr_str s
  | JArr items => "[" +:+ String.concat ", " (map py_repr items) +:+ "]"
  | JObj fields =>
      "{" +:+ String.concat ", "
                (map (λ kv, match kv with (k, x) => repr_str k +:+ ": " +:+ py_repr x end) fields)
          +:+ "}"
  end.

Definition py_str (v : json) : string :=
  match v with
  | JStr s => s
  | _ => py_repr v
  end.

Definition newline : string := String "010" EmptyString.

(** ** Configuration and persona *)

Definition MAX_RETRIES : nat := 3.
Definition INITIAL_DELAY_SECONDS : Z := 1.

Definition SYSTEM_PROMPT : string := "
You are 'VISION', a highly sophisticated artificial intelligence, modeled after a futuristic operating system (like J.A.R.V.I.S. or F.R.I.D.A.Y.).
Your primary function is to serve as a fast, reliable, and intelligent assistant, providing concise, factual, and visually attractive answers.

RULES:
1. Tone: Professional, slightly formal, highly succinct, and always helpful.
2. Formatting: Use Markdown for all output text.
3. Grounding: You are connected to live data via Google Search. USE THIS TOOL for any query requiring current, real-time, or factual information (e.g., news, weather, latest events, statistics).
4. Citations: If you use the search tool, you MUST include the citations in a structured list at the end of your response, before the final summary line.
5. Response Structure: Present the core answer first, followed by citations if search was used.
6. Acknowledge and execute. Do not engage in lengthy intros or pleasantries.
".

(** ** Payload builder *)

Definition get_base_payload (user_query : json) : json :=
  JObj [ ("contents", JArr [ JObj [ ("parts", JArr [ JObj [ ("text", user_query) ] ]) ] ]);
         ("systemInstruction", JObj [ ("parts", JArr [ JObj [ ("text", JStr SYSTEM_PROMPT) ] ]) ]);
         ("tools", JArr [ JObj [ ("google_search", JObj []) ] ]) ].

(** ** Effects: the network and the clock

    [requests.post] either raises or hands back a response object, on which
    [raise_for_status] and [json] may raise in turn.  Which network
    conditions end in which exception class is decided by the [requests]
    library; the program only sees the class. *)

Record response : Type := Response {
  bad_status : option string;   (* detail of the HTTPError [raise_for_status] raises, if any *)
  body : py json                (* what [response.json()] returns or raises *)
}.

Inductive event : Type :=
| EvPost (payload : json)
| EvSleep (seconds : Z).

Record io (A : Type) : Type := IO {
  outcome : py A;
  effects : list event
}.
Arguments IO {A} outcome effects.
Arguments outcome {A} _.
Arguments effects {A} _.

#[global] Instance io_ret : MRet io := λ A a, IO (Ok a) [].
#[global] Instance io_bind : MBind io := λ A B f m,
  match outcome m with
  | Ok a => let k := f a in IO (outcome k) (effects m ++ effects k)
  | Raise e => IO (Raise e) (effects m)
  end.

Definition lift {A} (m : py A) : io A := IO m [].

(** [try: body except Exception as e: handler e] *)
Definition try_except {A} (body : io A) (handler : exn → io A) : io A :=
  match outcome body with
  | Ok _ => body
  | Raise e => let h := handler e in IO (outcome h) (effects body ++ effects h)
  end.

Definition raise_for_status (r : response) : py unit :=
  match bad_status r with
  | Some detail => Raise (RequestException detail)
  | None => Ok tt
  end.

(** [time.sleep(seconds)] for the delays the program sleeps, 1 and 2.  The
    [ValueError] of a negative argument and the [OverflowError] of a huge
    one are not modelled: statements that range over the delay describe
    the program only where [time.sleep] accepts the delays. *)
Definition time_sleep (seconds : Z) : io unit := IO (Ok tt) [EvSleep seconds].

Definition is_post (ev : event) : bool :=
  match ev with EvPost _ => true | EvSleep _ => false end.

Definition sleeps (log : list event) : list Z :=
  omap (λ ev, match ev with EvSleep d => Some d | EvPost _ => None end) log.

Definition posts (log : list event) : nat := length (filter is_post log).

(** ** API caller *)

Definition no_candidates : json := JStr "Error: API response contained no candidates.".

Definition exhausted (max_retries : nat) (e : exn) : json :=
  JStr ("Error: Failed to connect to the AI system after " +:+ pretty max_retries
        +:+ " attempts. Request Exception: " +:+ exn_str e).

Definition critical (e : exn) : json :=
  JStr ("Critical Error: An unexpected issue prevented processing. Exception: " +:+ exn_str e).

Definition mysterious : json := JStr "Error: Request failed mysteriously.".

(** Lines 94-109: what the [try] block does with the decoded body. *)
Definition extract (result : json) : py (json * json) :=
  candidates ← py_get result "candidates" (JArr [JNull]);
  candidate ← py_first candidates;
  if negb (truthy candidate) then Ok (no_candidates, JArr [])
  else
    content ← py_get candidate "content" (JObj []);
    parts ← py_get content "parts" (JArr [JObj []]);
    part ← py_first parts;
    text ← py_get part "text" (JStr "Error: Text content not found.");
    grounding_metadata ← py_get candidate "groundingMetadata" JNull;
    grounded ← (if truthy grounding_metadata
                then attributions ← py_get grounding_metadata "groundingAttributions" JNull;
                     Ok (truthy attributions)
                else Ok false);
    sources ← (if grounded : bool
               then py_item grounding_metadata "groundingAttributions"
               else Ok (JArr []));
    Ok (text, sources).

(** The [try] block as a function of what [requests.post] came back with:
    the value it returns or the exception that leaves it. *)
Definition try_block (posted : py response) : py (json * json) :=
  response ← posted;
  _ ← raise_for_status response;
  result ← body response;
  extract result.

Section Caller.

(** The two retry settings are binders here, so that statements can range
    over them; the program runs with [MAX_RETRIES] and
    [INITIAL_DELAY_SECONDS]. [upstream i] is what the post of attempt [i]
    meets. *)
Variable max_retries : nat.
Variable initial_delay : Z.
Variable upstream : nat → py response.

Definition requests_post (payload : json) (attempt : nat) : io response :=
  IO (upstream attempt) [EvPost payload].

(** One iteration of the [for] loop: [Some r] is [return r], [None] falls
    through to the next iteration. *)
Definition attempt_body (payload : json) (attempt : nat) : io (option (json * json)) :=
  let delay := initial_delay * 2 ^ Z.of_nat attempt in
  try_except
    (response ← requests_post payload attempt;
     _ ← lift (raise_for_status response);
     result ← lift (body response);
     returned ← lift (extract result);
     mret (Some returned))
    (λ e,
       if is_RequestException e then
         if bool_decide (Z.of_nat attempt < Z.of_nat max_retries - 1)
         then _ ← time_sleep delay; mret None
         else mret (Some (exhausted max_retries e, JArr []))
       else mret (Some (critical e, JArr []))).

Fixpoint for_attempts (payload : json) (attempts : list nat) : io (option (json * json)) :=
  match attempts with
  | [] => mret None
  | attempt :: rest =>
      r ← attempt_body payload attempt;
      match r with
      | Some returned => mret (Some returned)
      | None => for_attempts payload rest
      end
  end.

Definition retry_loop (user_query : json) : io (option (json * json)) :=
  for_attempts (get_base_payload user_query) (seq 0 max_retries).

Definition call_gemini_api (user_query : json) : io (json * json) :=
  r ← retry_loop user_query;
  match r with
  | Some returned => mret returned
  | None => mret (mysterious, JArr [])
  end.

End Caller.

(** ** Citation formatters *)

Definition citation (title uri : json) : json := JObj [("title", title); ("uri", uri)].

(** The three reads at the top of both loops' bodies. *)
Definition read_attribution (attribution : json) : py (json * json) :=
  web_info ← py_get attribution "web" (JObj []);
  uri ← py_get web_info "uri" JNull;
  title ← py_get web_info "title" (JStr "Untitled Source");
  Ok (uri, title).

(** [uri and uri not in seen_uris]; the key is handed on for [seen_uris.add]. *)
Definition unseen (uri : json) (seen_uris : gset hkey) : py (option hkey) :=
  if truthy uri then
    k ← py_hash uri;
    Ok (if decide (k ∈ seen_uris) then None else Some k)
  else Ok None.

(** A [for] loop without [break]: the body is run on every item, threading
    the variables it assigns; an exception leaves the loop. *)
Fixpoint for_each {S A : Type} (body : S → A → py S) (state : S) (items : list A) : py S :=
  match items with
  | [] => Ok state
  | item :: rest => state' ← body state item; for_each body state' rest
  end.

(** Body of the loop of [format_citations_list] on [(citations, seen_uris)]. *)
Definition list_step (state : list json * gset hkey) (attribution : json)
  : py (list json * gset hkey) :=
  let '(citations, seen_uris) := state in
  '(uri, title) ← read_attribution attribution;
  fresh ← unseen uri seen_uris;
  match fresh with
  | Some k => Ok (citations ++ [citation title uri], {[k]} ∪ seen_uris)
  | None => Ok (citations, seen_uris)
  end.

Definition format_citations_list (sources : json) : py json :=
  items ← py_iter sources;
  '(citations, _) ← for_each list_step ([], ∅) items;
  Ok (JArr citations).

Definition source_log_header : string := newline +:+ "---" +:+ newline +:+ "**SOURCE LOG:**".
Definition source_log_footer : string := newline +:+ "---" +:+ newline.

Definition cli_link (source_index : Z) (title uri : json) : string :=
  pretty source_index +:+ ". [" +:+ py_str title +:+ "](" +:+ py_str uri +:+ ")".

(** Body of the loop of [format_citations_cli] on
    [(citations, seen_uris, source_index)]. *)
Definition cli_step (state : list string * gset hkey * Z) (attribution : json)
  : py (list string * gset hkey * Z) :=
  let '(citations, seen_uris, source_index) := state in
  '(uri, title) ← read_attribution attribution;
  fresh ← unseen uri seen_uris;
  match fresh with
  | Some k => Ok (citations ++ [cli_link source_index title uri],
                  {[k]} ∪ seen_uris, source_index + 1)
  | None => Ok (citations, seen_uris, source_index)
  end.

Definition format_citations_cli (sources : json) : py json :=
  if negb (truthy sources) then Ok (JStr "")
  else
    items ← py_iter sources;
    '(citations, _, _) ← for_each cli_step ([source_log_header], ∅, 1) items;
    if bool_decide (1 < length citations)%nat
    then Ok (JStr (String.concat newline citations +:+ source_log_footer))
    else Ok (JStr "").

(** ** Single-shot HTTP handler *)

Section Handler.

Variable upstream : nat → py response.

(** [get_json] is what [request.get_json()] does on the request at hand:
    the decoded body, or the exception Flask raises.  The result is the
    status and the dict handed to [jsonify]. *)
Definition api_ask (get_json : py json) : io (Z * json) :=
  try_except
    (data ← lift get_json;
     query ← lift (py_get data "query" (JStr ""));
     user_query ← lift (py_strip query);
     if negb (truthy user_query)
     then mret (400, JObj [("error", JStr "No query provided.")])
     else
       '(generated_text, sources) ← call_gemini_api MAX_RETRIES INITIAL_DELAY_SECONDS upstream user_query;
       citations ← lift (format_citations_list sources);
       mret (200, JObj [("query", user_query);
                        ("response", generated_text);
                        ("citations", citations)]))
    (λ e, mret (500, JObj [("error", JStr ("Internal server error: " +:+ exn_str e))])).

End Handler.

(** ** Vocabulary of the statements *)

(** An attempt fails at transport level when a [RequestException] leaves
    its [try] block. *)
Definition transport_failure (posted : py response) : Prop :=
  ∃ detail, try_block posted = Raise (RequestException detail).

(** What attempt [i] adds to the log when the sleep is counted with the
    attempt it precedes. *)
Definition attempt_events (initial_delay : Z) (payload : json) (i : nat) : list event :=
  match i with
  | O => [EvPost payload]
  | S j => [EvSleep (initial_delay * 2 ^ Z.of_nat j); EvPost payload]
  end.

(** The log of attempts [0 .. n-1]. *)
Definition schedule (initial_delay : Z) (payload : json) (n : nat) : list event :=
  flat_map (attempt_events initial_delay payload) (seq 0 n).

(** The log of the failed attempts [a .. a+k-1], each followed by its sleep. *)
Definition retries (initial_delay : Z) (payload : json) (a k : nat) : list event :=
  flat_map (λ i, [EvPost payload; EvSleep (initial_delay * 2 ^ Z.of_nat i)]) (seq a k).

(** What the attempt that ends the call returns. *)
Definition final (max_retries : nat) (posted : py response) : json * json :=
  match try_block posted with
  | Ok returned => returned
  | Raise e => if is_RequestException e then (exhausted max_retries e, JArr [])
               else (critical e, JArr [])
  end.

Definition is_str (v : json) : bool :=
  match v with JStr _ => true | _ => false end.

(** An attribution as the upstream contract describes it: an object whose
    [web], when present, is an object whose [uri], when present, is a
    string or null.  The title may be anything. *)
Definition attribution_ok (a : json) : bool :=
  match a with
  | JObj fields =>
      match dict_lookup "web" fields with
      | None => true
      | Some (JObj web) =>
          match dict_lookup "uri" web with
          | None | Some JNull | Some (JStr _) => true
          | Some _ => false
          end
      | Some _ => false
      end
  | _ => false
  end.

Definition sources_ok (sources : json) : bool :=
  match sources with
  | JArr items => forallb attribution_ok items
  | _ => false
  end.

(** The uri string an attribution carries, if any. *)
Definition attr_uri (a : json) : option string :=
  match a with
  | JObj fields =>
      match dict_lookup "web" fields with
      | Some (JObj web) =>
          match dict_lookup "uri" web with
          | Some (JStr u) => Some u
          | _ => None
          end
      | _ => None
      end
  | _ => None
  end.

(** Its title, or the default when it has none. *)
Definition attr_title (a : json) : json :=
  match a with
  | JObj fields =>
      match dict_lookup "web" fields with
      | Some (JObj web) =>
          match dict_lookup "title" web with
          | Some t => t
          | None => JStr "Untitled Source"
          end
      | _ => JStr "Untitled Source"
      end
  | _ => JStr "Untitled Source"
  end.

Definition uri_value (a : json) : json :=
  match attr_uri a with Some u => JStr u | None => JNull end.

Definition citation_of (a : json) : json := citation (attr_title a) (uri_value a).

(** [a] carries a non-empty uri that none of the [earlier] entries carries. *)
Definition is_new (earlier : list json) (a : json) : bool :=
  match attr_uri a with
  | Some u => negb (String.eqb u "") && bool_decide (u ∉ omap attr_uri earlier)
  | None => false
  end.

(** Order-preserving deduplication, by position: the entry at position [i]
    stays iff it is new with respect to the entries before position [i]. *)
Definition first_seen (l : list json) : list json :=
  omap id (imap (λ i a, if is_new (take i l) a then Some a else None) l).

(** The same, written as a recursion that carries the entries passed so far. *)
Fixpoint first_seen_after (earlier l : list json) : list json :=
  match l with
  | [] => []
  | a :: rest =>
      (if is_new earlier a then [a] else []) ++ first_seen_after (earlier ++ [a]) rest
  end.

(** The distinct uris that are present (not null) in a source list, and
    those among them that are not empty. *)
Definition distinct_uris (l : list json) : gset string :=
  list_to_set (omap attr_uri l).

Definition nonempty_uris (l : list json) : gset string :=
  list_to_set (filter (λ u, u ≠ "") (omap attr_uri l)).

(** The banner of the CLI rendering around a list of lines. *)
Definition banner (links : list string) : string :=
  String.concat newline (source_log_header :: links) +:+ source_log_footer.

(** Field of a citation record. *)
Definition field (key : string) (record : json) : json :=
  match record with
  | JObj fields => default JNull (dict_lookup key fields)
  | _ => JNull
  end.

(** The numbered link of the [i]-th record (from 0) of a citation list. *)
Definition record_link (i : nat) (record : json) : string :=
  cli_link (1 + Z.of_nat i) (field "title" record) (field "uri" record).

Definition render_records (records : list json) : string :=
  match records with
  | [] => ""
  | _ => banner (imap record_link records)
  end.

(** An attempt keeps to the upstream contract when, if its [try] block
    returns, the text is a string and the sources are a list of well-shaped
    attributions.  Attempts that raise keep to it. *)
Definition contract_ok (posted : py response) : bool :=
  match try_block posted with
  | Ok (text, sources) => is_str text && sources_ok sources
  | Raise _ => true
  end.

Definition ok_response (user_query generated_text citations : json) : Z * json :=
  (200, JObj [("query", user_query); ("response", generated_text); ("citations", citations)]).

Definition grounded_answer (text : string) (attributions : list json) : json :=
  JObj [("candidates",
         JArr [JObj [("content", JObj [("parts", JArr [JObj [("text", JStr text)]])]);
                     ("groundingMetadata",
                      JObj [("groundingAttributions", JArr attributions)])]])].

Definition null_text : json :=
  JObj [("candidates",
         JArr [JObj [("content", JObj [("parts", JArr [JObj [("text", JNull)]])])]])].

(** The value of [seen_uris] once the entries [earlier] have been passed. *)
Definition seen_keys (earlier : list json) : gset hkey :=
  list_to_set (HStr <$> filter (λ u, u ≠ "") (omap attr_uri earlier)).

(** The lines the CLI loop has collected when the list loop has collected
    [records]. *)
Definition lines_of (records : list json) : list string :=
  source_log_header :: imap record_link records.

Definition render (citations : json) : string :=
  match citations with
  | JArr records => render_records records
  | _ => ""
  end.

(** The numbered link of the [i]-th attribution kept. *)
Definition attribution_link (i : nat) (a : json) : string :=
  cli_link (1 + Z.of_nat i) (attr_title a) (uri_value a).

(** Source lists used in the examples. *)
Definition attribution (title uri : string) : json :=
  JObj [("web", JObj [("uri", JStr uri); ("title", JStr title)])].

Definition sample_sources : list json :=
  [attribution "A" "https://a.com"; attribution "A again" "https://a.com";
   JObj []; JObj [("web", JObj [("uri", JStr "https://b.com")])]].

Definition blank_uri_sources : list json := [attribution "Blank" ""].

Definition untitled_blank_sources : list json := [JObj [("web", JObj [("uri", JStr "")])]].

(** Upstream behaviours used in the examples. *)
Definition answer (text : string) : json :=
  JObj [("candidates",
         JArr [JObj [("content", JObj [("parts", JArr [JObj [("text", JStr text)]])])]])].

Definition replies (result : json) : py response := Ok (Response None (Ok result)).

Definition unreachable (detail : string) : py response := Raise (RequestException detail).

Definition two_failures_then (result : json) (i : nat) : py response :=
  match i with
  | 0%nat | 1%nat => unreachable "timed out"
  | _ => replies result
  end.

Definition always_unreachable (i : nat) : py response := unreachable "connection refused".

Definition empty_candidate_list : json := JObj [("candidates", JArr [])].

(** ** The interactive loop

    [input()] meets a line, Ctrl-C, or the end of the stream, which is the
    end of the list ([EOFError]).  A [KeyboardInterrupt] that arrives while
    a call is under way is not modelled.  [upstreams n] is what the call
    made for the [n]-th query of the session meets. *)

Definition MODEL : string := "gemini-2.5-flash-preview-05-20".

(** [str.lower] and [str.upper] on code points below 256.  The upper-case
    forms of code points 181 and 255 lie above 255 and are left as they
    are; [upper] is applied to [MODEL] only. *)
Definition lower_char (c : ascii) : ascii :=
  let n := N_of_ascii c in
  if ((65 <=? n) && (n <=? 90) || (192 <=? n) && (n <=? 222) && negb (n =? 215))%N
  then ascii_of_N (n + 32) else c.

Fixpoint lower (s : string) : string :=
  match s with
  | EmptyString => EmptyString
  | String c rest => String (lower_char c) (lower rest)
  end.

Definition upper_char (c : ascii) : string :=
  let n := N_of_ascii c in
  if (n =? 223)%N then "SS"
  else if ((97 <=? n) && (n <=? 122) || (224 <=? n) && (n <=? 254) && negb (n =? 247))%N
  then String (ascii_of_N (n - 32)) EmptyString
  else String c EmptyString.

Fixpoint upper (s : string) : string :=
  match s with
  | EmptyString => EmptyString
  | String c rest => upper_char c +:+ upper rest
  end.

(** [s * n] *)
Fixpoint repeat_str (s : string) (n : nat) : string :=
  match n with
  | O => EmptyString
  | S m => s +:+ repeat_str s m
  end.

Inductive console : Type :=
| Line (user_input : string)
| CtrlC.

Inductive cli_event : Type :=
| Prompt (text : string)
| Print (text : string)
| Net (ev : event).

(** How the loop is left: the [break] after an exit command, the [break]
    of the [except (EOFError, KeyboardInterrupt)] clause, or an exception
    that no clause catches. *)
Inductive ending : Type :=
| Shutdown
| Interrupted
| Crashed (e : exn).

Definition prompt : cli_event := Prompt "USER QUERY >>> ".

Definition shutdown_message : string :=
  newline +:+ "[VISION] | System shutting down. Have a productive day.".

Definition interrupted_message : string :=
  newline +:+ "[VISION] | Sequence interrupted. Terminating.".

(** [user_input.lower() in ['exit', 'quit']] *)
Definition is_exit (user_input : string) : bool :=
  String.eqb (lower user_input) "exit" || String.eqb (lower user_input) "quit".

(** [not user_input.strip()] *)
Definition is_blank (user_input : string) : bool := String.eqb (strip user_input) "".

Section Loop.

Variable upstreams : nat → nat → py response.

(** Lines 220-236 for the [n]-th query: the exception that escapes, if any,
    and what was printed and sent. *)
Definition respond (user_input : string) (n : nat) : option exn * list cli_event :=
  let called := call_gemini_api MAX_RETRIES INITIAL_DELAY_SECONDS (upstreams n) (JStr user_input) in
  let started := Print ("[" +:+ upper MODEL +:+ "] | Initializing sequence...")
                 :: (Net <$> effects called) in
  match outcome called with
  | Raise e => (Some e, started)
  | Ok (generated_text, sources) =>
      let shown := started
                   ++ [Print (newline +:+ repeat_str "=" 70); Print "[VISION] | RESPONSE GENERATED:"]
                   ++ (if truthy generated_text then [Print (py_str generated_text)] else []) in
      match format_citations_cli sources with
      | Raise e => (Some e, shown)
      | Ok citations_output =>
          (None, shown ++ [Print (py_str citations_output); Print (repeat_str "-" 70)])
      end
  end.

(** The [while True] loop, [n] queries having been answered. *)
Fixpoint session (inputs : list console) (n : nat) : ending * list cli_event :=
  match inputs with
  | [] => (Interrupted, [prompt; Print interrupted_message])
  | CtrlC :: _ => (Interrupted, [prompt; Print interrupted_message])
  | Line user_input :: rest =>
      if is_exit user_input then (Shutdown, [prompt; Print shutdown_message])
      else if is_blank user_input then
        let later := session rest n in (later.1, prompt :: later.2)
      else
        let answered := respond user_input n in
        match answered.1 with
        | Some e => (Crashed e, prompt :: answered.2)
        | None =>
            let later := session rest (S n) in
            (later.1, prompt :: answered.2 ++ later.2)
        end
  end.

Definition main_assistant_loop (inputs : list console) : ending * list cli_event :=
  let opened := [Print (repeat_str "=" 70);
                 Print "J.A.R.V.I.S. ASSISTANT - VISION PROTOCOL INITIALIZED (CLI Mode)";
                 Print ("Model: " +:+ MODEL +:+ " | Search Grounding: ACTIVE");
                 Print "Enter 'exit' or 'quit' to terminate the assistant.";
                 Print (repeat_str "-" 70)] in
  let ran := session inputs 0 in
  (ran.1, opened ++ ran.2).

End Loop.

(** ** Vocabulary of the further statements *)

(** The payloads posted, in order, and the time slept in all. *)
Definition posted (log : list event) : list json :=
  omap (λ ev, match ev with EvPost payload => Some payload | EvSleep _ => None end) log.


(** The network events of a console trace. *)
Definition net_log (trace : list cli_event) : list event :=
  omap (λ ev, match ev with Net e => Some e | _ => None end) trace.


(** The part of the input the loop reads when nothing escapes: up to the
    first exit command or Ctrl-C. *)
Fixpoint lines_read (inputs : list console) : list string :=
  match inputs with
  | [] | CtrlC :: _ => []
  | Line user_input :: rest =>
      if is_exit user_input then [] else user_input :: lines_read rest
  end.

Fixpoint exits (inputs : list console) : bool :=
  match inputs with
  | [] | CtrlC :: _ => false
  | Line user_input :: rest => is_exit user_input || exits rest
  end.

(** The entries [format_citations_list] gets past: objects whose [web],
    when present, is an object whose [uri] is not a non-empty list or
    dict. *)
Definition accepted (a : json) : bool :=
  match a with
  | JObj fields =>
      match dict_lookup "web" fields with
      | None => true
      | Some (JObj web) =>
          match dict_lookup "uri" web with
          | Some (JArr (_ :: _)) | Some (JObj (_ :: _)) => false
          | _ => true
          end
      | Some _ => false
      end
  | _ => false
  end.

(** The key under which a record's uri sits in [seen_uris]. *)
Definition record_key (record : json) : option hkey :=
  match py_hash (field "uri" record) with
  | Ok k => Some k
  | Raise _ => None
  end.

(** The sources [extract] hands back for a candidate whose
    [groundingMetadata] is absent, falsy or an object. *)
Definition attributions_of (candidate_fields : list (string * json)) : json :=
  match dict_lookup "groundingMetadata" candidate_fields with
  | Some (JObj metadata) =>
      match dict_lookup "groundingAttributions" metadata with
      | Some attributions => if truthy attributions then attributions else JArr []
      | None => JArr []
      end
  | _ => JArr []
  end.

Definition metadata_ok (candidate_fields : list (string * json)) : Prop :=
  ∀ v, dict_lookup "groundingMetadata" candidate_fields = Some v →
       truthy v = true → ∃ metadata, v = JObj metadata.

Definition text_placeholder : json := JStr "Error: Text content not found.".

(** The trimmed query of a request the handler passes on to the call: the
    body is an object whose [query] is a string that is not blank. *)
Definition asks (get_json : py json) : option string :=
  match get_json with
  | Ok (JObj fields) =>
      match dict_lookup "query" fields with
      | Some (JStr s) => if String.eqb (strip s) "" then None else Some (strip s)
      | _ => None
      end
  | _ => None
  end.

Definition error_body (status : Z) (body : json) : Prop :=
  (status = 400 ∨ status = 500) ∧ ∃ message, body = JObj [("error", JStr message)].

(** The queries of a console input: the lines read that are not blank. *)
Definition queries_of (inputs : list console) : list string :=
  filter (λ s, is_blank s = false) (lines_read inputs).

(** What is posted for the queries [served] when the call for the [i]-th
    of them makes [ks !! i] retries. *)
Definition bursts (served : list string) (ks : list nat) : list json :=
  concat (zip_with (λ q k, replicate (S k) (get_base_payload (JStr q))) served ks).

Definition is_prompt (ev : cli_event) : bool :=
  match ev with Prompt _ => true | _ => false end.

Definition prompts (trace : list cli_event) : nat := length (filter is_prompt trace).

Definition crashed (e : ending) : bool :=
  match e with Crashed _ => true | _ => false end.

(** Every character of the string is white space. *)
Fixpoint all_space (s : string) : bool :=
  match s with
  | EmptyString => true
  | String c rest => isspace c && all_space rest
  end.

(** A 2xx response whose body is not JSON.  From version 2.27 of [requests]
    on, [response.json()] then raises [requests.exceptions.JSONDecodeError],
    a subclass of [RequestException]; [detail] is its message. *)
Definition undecodable (detail : string) : py response :=
  Ok (Response None (Raise (RequestException detail))).

Definition always_undecodable (i : nat) : py response :=
  undecodable "Expecting value: line 1 column 1 (char 0)".

(** The log of a call that posts [S (length delays)] times: a post, then
    each sleep followed by a post. *)
Definition alternating (payload : json) (delays : list Z) : list event :=
  EvPost payload :: flat_map (λ d, [EvSleep d; EvPost payload]) delays.

(** ** The program on concrete inputs *)

Example exhausted_text :
  exhausted MAX_RETRIES (RequestException "connection refused") =
  JStr "Error: Failed to connect to the AI system after 3 attempts. Request Exception: connection refused".
Proof. reflexivity. Qed.

Example extract_answer :
  extract (grounded_answer "ready" sample_sources) = Ok (JStr "ready", JArr sample_sources).
Proof. reflexivity. Qed.

Example extract_without_parts :
  extract (JObj [("candidates", JArr [JObj [("finishReason", JStr "SAFETY")]])]) =
  Ok (JStr "Error: Text content not found.", JArr []).
Proof. reflexivity. Qed.

Example list_of_sample :
  format_citations_list (JArr sample_sources) =
  Ok (JArr [JObj [("title", JStr "A"); ("uri", JStr "https://a.com")];
            JObj [("title", JStr "Untitled Source"); ("uri", JStr "https://b.com")]]).
Proof. reflexivity. Qed.

Example cli_of_sample :
  format_citations_cli (JArr sample_sources) =
  Ok (JStr (newline +:+ "---" +:+ newline +:+ "**SOURCE LOG:**" +:+ newline
            +:+ "1. [A](https://a.com)" +:+ newline
            +:+ "2. [Untitled Source](https://b.com)" +:+ newline
            +:+ "---" +:+ newline)).
Proof. reflexivity. Qed.

Example ask_through_two_failures :
  outcome (api_ask (two_failures_then (grounded_answer "ready" sample_sources))
             (Ok (JObj [("query", JStr "  status ")]))) =
  Ok (200, JObj [("query", JStr "status");
                 ("response", JStr "ready");
                 ("citations",
                  JArr [JObj [("title", JStr "A"); ("uri", JStr "https://a.com")];
                        JObj [("title", JStr "Untitled Source");
                              ("uri", JStr "https://b.com")]])]).
Proof. reflexivity. Qed.

Example repr_of_values :
  py_str (JArr [JStr "it's"; JInt (-5); JObj [("k", JNull)]; JBool true]) =
  "[" +:+ String dquote ("it's" +:+ String dquote ", -5, {'k': None}, True]").
Proof. reflexivity. Qed.

Example strip_blank : strip (" " +:+ newline +:+ "  ") = "" ∧ strip "  a b  " = "a b".
Proof. split; reflexivity. Qed.

(** ** Facts about the monads *)

Lemma io_bind_ok {A B} (a : A) (log : list event) (k : A → io B) :
  (IO (Ok a) log ≫= k) = IO (outcome (k a)) (log ++ effects (k a)).
Proof. reflexivity. Qed.

(** ** The retry loop *)

Section CallerFacts.

Variable max_retries : nat.
Variable initial_delay : Z.
Variable upstream : nat → py response.

#[local] Abbreviation attempt := (attempt_body max_retries initial_delay upstream).
#[local] Abbreviation loop := (for_attempts max_retries initial_delay upstream).
#[local] Abbreviation call := (call_gemini_api max_retries initial_delay upstream).

Lemma attempt_body_unfold payload i :
  attempt payload i =
  match try_block (upstream i) with
  | Ok returned => IO (Ok (Some returned)) [EvPost payload]
  | Raise e =>
      if is_RequestException e then
        if bool_decide (Z.of_nat i < Z.of_nat max_retries - 1)
        then IO (Ok None) [EvPost payload; EvSleep (initial_delay * 2 ^ Z.of_nat i)]
        else IO (Ok (Some (exhausted max_retries e, JArr []))) [EvPost payload]
      else IO (Ok (Some (critical e, JArr []))) [EvPost payload]
  end.
Proof.
  unfold attempt_body, requests_post, try_block, raise_for_status, try_except.
  destruct (upstream i) as [[[detail|] [result|e]]|e]; simpl.
  - by case_bool_decide.
  - by case_bool_decide.
  - destruct (extract result) as [returned|e] eqn:E; cbn; rewrite ?E; cbn; [done|].
    by destruct e; simpl; try case_bool_decide.
  - by destruct e; simpl; try case_bool_decide.
  - by destruct e; simpl; try case_bool_decide.
Qed.

Lemma transport_failure_is_request posted :
  transport_failure posted ↔
  ∃ e, try_block posted = Raise e ∧ is_RequestException e = true.
Proof.
  split.
  - intros [detail H]. by exists (RequestException detail).
  - intros [[] [H He]]; try discriminate. by eexists.
Qed.

(** The loop over the attempts [a .. a+n-1] that remain: [k] of them fail
    at transport level and are retried, the next one ends the call. *)
Lemma loop_seq payload n : ∀ a,
  (a + n = max_retries)%nat → (0 < n)%nat →
  ∃ k, (k < n)%nat
     ∧ (∀ j, (a ≤ j < a + k)%nat → transport_failure (upstream j))
     ∧ (transport_failure (upstream (a + k)) → (a + k + 1 = max_retries)%nat)
     ∧ loop payload (seq a n) =
         IO (Ok (Some (final max_retries (upstream (a + k)))))
            (retries initial_delay payload a k ++ [EvPost payload]).
Proof.
  induction n as [|n IH]; intros a Hsum Hpos; [lia|].
  cbn [seq for_attempts]. rewrite attempt_body_unfold.
  destruct (try_block (upstream a)) as [returned|e] eqn:Hblock.
  - exists 0%nat. rewrite Nat.add_0_r. unfold final. rewrite Hblock.
    split_and!; [lia | intros; lia | | done].
    intros [detail Hd]. congruence.
  - destruct (is_RequestException e) eqn:He.
    + case_bool_decide as Hlast.
      * destruct (IH (S a)) as (k & Hk & Hfail & Hend & Hloop); [lia..|].
        exists (S k). replace (a + S k)%nat with (S a + k)%nat by lia.
        split_and!; [lia | | done |].
        -- intros j Hj. destruct (decide (j = a)) as [->|].
           ++ apply transport_failure_is_request. eauto.
           ++ apply Hfail. lia.
        -- rewrite io_bind_ok, Hloop. done.
      * exists 0%nat. rewrite Nat.add_0_r. unfold final. rewrite Hblock, He.
        split_and!; [lia | intros; lia | intros; lia | done].
    + exists 0%nat. rewrite Nat.add_0_r. unfold final. rewrite Hblock, He.
      split_and!; [lia | intros; lia | | done].
      intros [detail Hd]. rewrite Hd in Hblock. by simplify_eq.
Qed.

(** Counting each sleep with the attempt it precedes. *)
Lemma retries_schedule payload k :
  retries initial_delay payload 0 k ++ [EvPost payload] =
  schedule initial_delay payload (S k).
Proof.
  unfold retries, schedule. induction k as [|k IH]; [done|].
  rewrite (seq_S (S k)), !seq_S, !flat_map_app in *. cbn [flat_map] in *.
  rewrite !app_nil_r in *. rewrite <- IH. cbn [attempt_events Nat.add].
  by rewrite <- !app_assoc.
Qed.

(** Every call ends inside the loop, on attempt [k] after [k] retried
    failures. *)
Lemma call_shape user_query :
  (0 < max_retries)%nat →
  ∃ k, (k < max_retries)%nat
     ∧ (∀ j, (j < k)%nat → transport_failure (upstream j))
     ∧ (transport_failure (upstream k) → (k + 1 = max_retries)%nat)
     ∧ retry_loop max_retries initial_delay upstream user_query =
         IO (Ok (Some (final max_retries (upstream k))))
            (schedule initial_delay (get_base_payload user_query) (S k))
     ∧ call user_query =
         IO (Ok (final max_retries (upstream k)))
            (schedule initial_delay (get_base_payload user_query) (S k)).
Proof.
  intros Hpos. unfold call_gemini_api, retry_loop.
  destruct (loop_seq (get_base_payload user_query) max_retries 0)
    as (k & Hk & Hfail & Hend & Hloop); [lia..|].
  exists k. rewrite Hloop, retries_schedule, io_bind_ok. cbn.
  rewrite app_nil_r. split_and!; [done | intros; apply Hfail; lia | done..].
Qed.

(** The attempt that ends the call is the first one that does not fail at
    transport level, or the last one allowed. *)
Lemma call_ends_at user_query i :
  (i < max_retries)%nat →
  (∀ j, (j < i)%nat → transport_failure (upstream j)) →
  (transport_failure (upstream i) → (i + 1 = max_retries)%nat) →
  call user_query =
    IO (Ok (final max_retries (upstream i)))
       (schedule initial_delay (get_base_payload user_query) (S i)).
Proof.
  intros Hi Hbefore Hat.
  destruct (call_shape user_query) as (k & Hk & Hfail & Hend & _ & Hcall); [lia|].
  assert (k = i) as ->; [|done].
  destruct (Nat.lt_trichotomy k i) as [Hlt|[->|Hgt]]; [|done|].
  - specialize (Hend (Hbefore k Hlt)). lia.
  - specialize (Hat (Hfail i Hgt)). lia.
Qed.

End CallerFacts.

Lemma posts_schedule initial_delay payload n :
  posts (schedule initial_delay payload n) = n.
Proof.
  unfold posts, schedule. induction n as [|n IH]; [done|].
  rewrite seq_S, flat_map_app, filter_app, length_app, IH. cbn [flat_map].
  rewrite app_nil_r, Nat.add_comm. by destruct n.
Qed.

Lemma sleeps_schedule initial_delay payload n :
  sleeps (schedule initial_delay payload (S n)) =
  map (λ i, initial_delay * 2 ^ Z.of_nat i) (seq 0 n).
Proof.
  unfold sleeps, schedule. induction n as [|n IH]; [done|].
  rewrite (seq_S (S n)), flat_map_app, omap_app, IH, (seq_S n), map_app.
  cbn [flat_map omap attempt_events Nat.add]. by rewrite app_nil_r.
Qed.

(** C1 (as amended): the log of a call is that of attempts [0 .. k] for some
    [k < max_retries], where attempt 0 is preceded by no sleep and attempt
    [i > 0] by a sleep of [initial_delay * 2^(i-1)], so that the sleeps
    taken are [initial_delay * 2^0, ..., initial_delay * 2^(k-1)]; with
    three attempts allowed, two transport failures followed by a success
    return the successful text after sleeps of [initial_delay * 1] and
    [initial_delay * 2]. *)
Theorem backoff_schedule (initial_delay : Z) (upstream : nat → py response) (user_query : json) :
  (∀ max_retries, (0 < max_retries)%nat →
     ∃ k, (k < max_retries)%nat ∧
       effects (call_gemini_api max_retries initial_delay upstream user_query) =
       schedule initial_delay (get_base_payload user_query) (S k)
       ∧ sleeps (effects (call_gemini_api max_retries initial_delay upstream user_query)) =
         map (λ j, initial_delay * 2 ^ Z.of_nat j) (seq 0 k))
  ∧ (∀ text sources,
       transport_failure (upstream 0%nat) →
       transport_failure (upstream 1%nat) →
       try_block (upstream 2%nat) = Ok (text, sources) →
       call_gemini_api 3 initial_delay upstream user_query =
       IO (Ok (text, sources))
          [EvPost (get_base_payload user_query); EvSleep (initial_delay * 1);
           EvPost (get_base_payload user_query); EvSleep (initial_delay * 2);
           EvPost (get_base_payload user_query)]).
Proof.
  split.
  - intros max_retries Hpos.
    destruct (call_shape max_retries initial_delay upstream user_query Hpos)
      as (k & Hk & _ & _ & _ & Hcall).
    exists k. rewrite Hcall. cbn [effects]. by rewrite sleeps_schedule.
  - intros text sources H0 H1 H2.
    rewrite (call_ends_at 3 initial_delay upstream user_query 2); [|lia| |].
    + unfold final. rewrite H2. done.
    + intros j Hj. destruct j as [|[|j]]; [done|done|lia].
    + intros [detail Hd]. congruence.
Qed.

Lemma backoff_schedule_witness :
  call_gemini_api 3 1 (two_failures_then (answer "ready")) (JStr "status") =
  IO (Ok (JStr "ready", JArr []))
     [EvPost (get_base_payload (JStr "status")); EvSleep (1 * 1);
      EvPost (get_base_payload (JStr "status")); EvSleep (1 * 2);
      EvPost (get_base_payload (JStr "status"))].
Proof.
  apply (proj2 (backoff_schedule 1 (two_failures_then (answer "ready")) (JStr "status"))).
  - by exists "timed out".
  - by exists "timed out".
  - reflexivity.
Defined.

(** C1 as stated fails: after two transport failures the sleeps taken are
    [INITIAL_DELAY_SECONDS * 1] and [INITIAL_DELAY_SECONDS * 2], not
    [INITIAL_DELAY_SECONDS * 2] and [INITIAL_DELAY_SECONDS * 4]. *)
Lemma first_retry_sleeps_initial_delay :
  let log := effects (call_gemini_api MAX_RETRIES INITIAL_DELAY_SECONDS
                        (two_failures_then (answer "ready")) (JStr "status")) in
  sleeps log = [INITIAL_DELAY_SECONDS * 1; INITIAL_DELAY_SECONDS * 2]
  ∧ sleeps log ≠ [INITIAL_DELAY_SECONDS * 2; INITIAL_DELAY_SECONDS * 4].
Proof. split; [reflexivity | discriminate]. Qed.

(** C5: when every one of the [max_retries] attempts fails at transport
    level, the call returns the exhaustion text, carrying the detail of the
    last exception, and an empty source list, after exactly [max_retries]
    posts. *)
Theorem exhaustion_returns_sentinel (max_retries : nat) (initial_delay : Z)
    (upstream : nat → py response) (user_query : json) :
  (0 < max_retries)%nat →
  (∀ i, (i < max_retries)%nat → transport_failure (upstream i)) →
  ∃ detail,
    try_block (upstream (max_retries - 1)%nat) = Raise (RequestException detail)
    ∧ outcome (call_gemini_api max_retries initial_delay upstream user_query) =
      Ok (JStr ("Error: Failed to connect to the AI system after " +:+ pretty max_retries
                +:+ " attempts. Request Exception: " +:+ detail), JArr [])
    ∧ posts (effects (call_gemini_api max_retries initial_delay upstream user_query))
      = max_retries.
Proof.
  intros Hpos Hall.
  destruct (Hall (max_retries - 1)%nat) as [detail Hd]; [lia|].
  exists detail. split; [done|].
  rewrite (call_ends_at max_retries initial_delay upstream user_query (max_retries - 1)%nat);
    [|lia|intros; apply Hall; lia|intros; lia].
  unfold final. rewrite Hd. cbn [is_RequestException outcome effects].
  rewrite posts_schedule. split; [done|lia].
Qed.

Lemma exhaustion_returns_sentinel_witness :
  ∃ detail,
    try_block (always_unreachable (MAX_RETRIES - 1)%nat) = Raise (RequestException detail)
    ∧ outcome (call_gemini_api MAX_RETRIES INITIAL_DELAY_SECONDS always_unreachable (JStr "status")) =
      Ok (JStr ("Error: Failed to connect to the AI system after " +:+ pretty MAX_RETRIES
                +:+ " attempts. Request Exception: " +:+ detail), JArr [])
    ∧ posts (effects (call_gemini_api MAX_RETRIES INITIAL_DELAY_SECONDS always_unreachable
                        (JStr "status")))
      = MAX_RETRIES.
Proof.
  apply (exhaustion_returns_sentinel MAX_RETRIES INITIAL_DELAY_SECONDS always_unreachable
           (JStr "status")).
  - unfold MAX_RETRIES. lia.
  - intros i _. by exists "connection refused".
Defined.

(** What [extract] does when the decoded body names no candidate: the key
    is absent, or the first element of the list is falsy. *)
Lemma extract_no_candidate (result : json) :
  (∃ candidates, py_get result "candidates" (JArr [JNull]) = Ok candidates
     ∧ ∃ candidate, py_first candidates = Ok candidate ∧ truthy candidate = false) →
  extract result = Ok (no_candidates, JArr []).
Proof.
  intros (candidates & Hget & candidate & Hfirst & Hfalsy).
  unfold extract. rewrite Hget. cbn. rewrite Hfirst. cbn. by rewrite Hfalsy.
Qed.

Lemma extract_absent_key (fields : list (string * json)) :
  dict_lookup "candidates" fields = None →
  extract (JObj fields) = Ok (no_candidates, JArr []).
Proof.
  intros Habsent. apply extract_no_candidate. cbn. rewrite Habsent. eauto.
Qed.

(** The exceptions [extract] raises come from attribute access and
    subscripting, never from the transport. *)
Lemma extract_raises_no_RequestException (result : json) (e : exn) :
  extract result = Raise e → is_RequestException e = false.
Proof.
  unfold extract, py_get, py_first, py_item, no_attribute, not_subscriptable.
  intros H.
  repeat (simplify_eq/=; try done;
          match goal with
          | H : context [match ?x with _ => _ end] |- _ => destruct x eqn:?
          end).
Qed.

(** C6 at the failing input: a decoded body whose candidate list is empty
    ends the call at once, but with the critical-error text of the
    [IndexError], not with the no-candidates text. *)
Theorem empty_candidate_list_is_critical (user_query : json) :
  call_gemini_api MAX_RETRIES INITIAL_DELAY_SECONDS (λ _, replies empty_candidate_list) user_query =
  IO (Ok (JStr "Critical Error: An unexpected issue prevented processing. Exception: list index out of range",
          JArr []))
     [EvPost (get_base_payload user_query)]
  ∧ JStr "Critical Error: An unexpected issue prevented processing. Exception: list index out of range"
    ≠ no_candidates.
Proof. split; [reflexivity | discriminate]. Qed.

(** A body without the [candidates] key, on an attempt that is reached,
    gives the no-candidates text; that attempt is the last post. *)
Lemma absent_candidates_not_retried (max_retries : nat) (initial_delay : Z)
    (upstream : nat → py response) (user_query : json) (i : nat)
    (fields : list (string * json)) :
  (i < max_retries)%nat →
  (∀ j, (j < i)%nat → transport_failure (upstream j)) →
  upstream i = replies (JObj fields) →
  dict_lookup "candidates" fields = None →
  call_gemini_api max_retries initial_delay upstream user_query =
  IO (Ok (no_candidates, JArr []))
     (schedule initial_delay (get_base_payload user_query) (S i)).
Proof.
  intros Hi Hbefore Hup Habsent.
  assert (try_block (upstream i) = Ok (no_candidates, JArr [])) as Hblock.
  { rewrite Hup. cbn. by apply extract_absent_key. }
  rewrite (call_ends_at max_retries initial_delay upstream user_query i);
    [|done|done|intros [d Hd]; congruence].
  unfold final. by rewrite Hblock.
Qed.

(** An exception raised while the decoded body is taken apart ends the call
    with the critical-error text. *)
Lemma handling_error_is_critical (max_retries : nat) (initial_delay : Z)
    (upstream : nat → py response) (user_query : json) (i : nat) (result : json) (e : exn) :
  (i < max_retries)%nat →
  (∀ j, (j < i)%nat → transport_failure (upstream j)) →
  upstream i = replies result →
  extract result = Raise e →
  call_gemini_api max_retries initial_delay upstream user_query =
  IO (Ok (critical e, JArr []))
     (schedule initial_delay (get_base_payload user_query) (S i)).
Proof.
  intros Hi Hbefore Hup Hraise.
  assert (try_block (upstream i) = Raise e) as Hblock by (by rewrite Hup).
  pose proof (extract_raises_no_RequestException result e Hraise) as Hclass.
  rewrite (call_ends_at max_retries initial_delay upstream user_query i); [|done|done|].
  - unfold final. by rewrite Hblock, Hclass.
  - intros [d Hd]. rewrite Hd in Hblock. by simplify_eq.
Qed.

(** An exception other than a [RequestException] that leaves the [try]
    block of an attempt that is reached ends the call there. *)
Lemma non_request_exception_ends_call (max_retries : nat) (initial_delay : Z)
    (upstream : nat → py response) (user_query : json) (i : nat) (e : exn) :
  (i < max_retries)%nat →
  (∀ j, (j < i)%nat → transport_failure (upstream j)) →
  try_block (upstream i) = Raise e →
  is_RequestException e = false →
  call_gemini_api max_retries initial_delay upstream user_query =
    IO (Ok (JStr ("Critical Error: An unexpected issue prevented processing. Exception: "
                  +:+ exn_str e), JArr []))
       (schedule initial_delay (get_base_payload user_query) i
        ++ attempt_events initial_delay (get_base_payload user_query) i)
  ∧ posts (effects (call_gemini_api max_retries initial_delay upstream user_query)) = S i
  ∧ last (effects (call_gemini_api max_retries initial_delay upstream user_query))
    = Some (EvPost (get_base_payload user_query)).
Proof.
  intros Hi Hbefore Hraise Hclass.
  rewrite (call_ends_at max_retries initial_delay upstream user_query i);
    [|done|done|].
  - unfold final. rewrite Hraise, Hclass. cbn [outcome effects].
    rewrite posts_schedule. unfold schedule. rewrite seq_S, flat_map_app. cbn [flat_map].
    rewrite app_nil_r. split_and!; [done..|].
    rewrite last_app. by destruct i.
  - intros [detail Hd]. rewrite Hd in Hraise. by simplify_eq.
Qed.

Lemma undecodable_is_transport_failure (detail : string) :
  transport_failure (undecodable detail).
Proof. by exists detail. Qed.

(** A body that cannot be decoded, on an attempt that is reached and is
    not the last one allowed, does not end the call: the sleep of that
    attempt is taken and a further post follows. *)
Lemma undecodable_body_goes_on (max_retries : nat) (initial_delay : Z)
    (upstream : nat → py response) (user_query : json) (i : nat) (detail : string) :
  (i + 1 < max_retries)%nat →
  (∀ j, (j < i)%nat → transport_failure (upstream j)) →
  upstream i = undecodable detail →
  (S i < posts (effects (call_gemini_api max_retries initial_delay upstream user_query)))%nat
  ∧ sleeps (effects (call_gemini_api max_retries initial_delay upstream user_query)) !! i
    = Some (initial_delay * 2 ^ Z.of_nat i).
Proof.
  intros Hi Hbefore Hup.
  destruct (call_shape max_retries initial_delay upstream user_query)
    as (k & Hk & Hfail & Hend & _ & Hcall); [lia|].
  assert (transport_failure (upstream i)) as Hat
    by (rewrite Hup; apply undecodable_is_transport_failure).
  assert (i < k)%nat as Hik.
  { destruct (Nat.lt_trichotomy k i) as [Hlt|[->|Hgt]]; [|specialize (Hend Hat); lia|done].
    specialize (Hend (Hbefore k Hlt)). lia. }
  rewrite Hcall. cbn [effects]. rewrite posts_schedule, sleeps_schedule.
  split; [lia|].
  change (map ?f ?l) with (f <$> l). rewrite list_lookup_fmap, lookup_seq_lt by done. done.
Qed.

(** C7 (as amended): if attempt [i] is reached and an exception other than
    a [RequestException] leaves its [try] block, as the errors raised while
    the decoded body is taken apart do, the call returns the critical-error
    text with an empty source list; attempt [i] is the last post and no
    sleep follows it.  A body that is not JSON is no such case:
    [response.json()] raises a [RequestException], so the attempt is
    retried after its sleep like any transport failure, and when every
    attempt meets such a body the call returns the exhaustion text. *)
Theorem only_other_exceptions_short_circuit (max_retries : nat) (initial_delay : Z)
    (upstream : nat → py response) (user_query : json) :
  (∀ i e,
     (i < max_retries)%nat →
     (∀ j, (j < i)%nat → transport_failure (upstream j)) →
     try_block (upstream i) = Raise e →
     is_RequestException e = false →
     call_gemini_api max_retries initial_delay upstream user_query =
       IO (Ok (JStr ("Critical Error: An unexpected issue prevented processing. Exception: "
                     +:+ exn_str e), JArr []))
          (schedule initial_delay (get_base_payload user_query) i
           ++ attempt_events initial_delay (get_base_payload user_query) i)
     ∧ posts (effects (call_gemini_api max_retries initial_delay upstream user_query)) = S i
     ∧ last (effects (call_gemini_api max_retries initial_delay upstream user_query))
       = Some (EvPost (get_base_payload user_query)))
  ∧ (∀ i result e,
       (i < max_retries)%nat →
       (∀ j, (j < i)%nat → transport_failure (upstream j)) →
       upstream i = replies result →
       extract result = Raise e →
       is_RequestException e = false
       ∧ call_gemini_api max_retries initial_delay upstream user_query =
         IO (Ok (JStr ("Critical Error: An unexpected issue prevented processing. Exception: "
                       +:+ exn_str e), JArr []))
            (schedule initial_delay (get_base_payload user_query) (S i)))
  ∧ (∀ i detail,
       (i + 1 < max_retries)%nat →
       (∀ j, (j < i)%nat → transport_failure (upstream j)) →
       upstream i = undecodable detail →
       (S i < posts (effects (call_gemini_api max_retries initial_delay upstream user_query)))%nat
       ∧ sleeps (effects (call_gemini_api max_retries initial_delay upstream user_query)) !! i
         = Some (initial_delay * 2 ^ Z.of_nat i))
  ∧ (∀ detail,
       (0 < max_retries)%nat →
       (∀ i, (i < max_retries)%nat → upstream i = undecodable detail) →
       outcome (call_gemini_api max_retries initial_delay upstream user_query) =
         Ok (JStr ("Error: Failed to connect to the AI system after " +:+ pretty max_retries
                   +:+ " attempts. Request Exception: " +:+ detail), JArr [])
       ∧ posts (effects (call_gemini_api max_retries initial_delay upstream user_query))
         = max_retries).
Proof.
  split_and!.
  - intros i e. apply non_request_exception_ends_call.
  - intros i result e Hi Hbefore Hup Hraise.
    split; [by eapply extract_raises_no_RequestException|].
    by apply (handling_error_is_critical max_retries initial_delay upstream user_query i result).
  - intros i detail. apply undecodable_body_goes_on.
  - intros detail Hpos Hall.
    rewrite (call_ends_at max_retries initial_delay upstream user_query (max_retries - 1)%nat);
      [|lia| |intros; lia].
    + unfold final. rewrite (Hall (max_retries - 1)%nat) by lia.
      cbn [outcome effects]. rewrite posts_schedule. split; [done|lia].
    + intros j Hj. rewrite (Hall j) by lia. apply undecodable_is_transport_failure.
Qed.

Lemma only_other_exceptions_short_circuit_witness :
  call_gemini_api MAX_RETRIES INITIAL_DELAY_SECONDS
    (λ i, match i with 0%nat => undecodable "Expecting value" | _ => replies (JArr []) end)
    (JStr "status") =
    IO (Ok (JStr ("Critical Error: An unexpected issue prevented processing. Exception: "
                  +:+ "'list' object has no attribute 'get'"), JArr []))
       [EvPost (get_base_payload (JStr "status")); EvSleep 1;
        EvPost (get_base_payload (JStr "status"))]
  ∧ (1 < posts (effects (call_gemini_api MAX_RETRIES INITIAL_DELAY_SECONDS
                           (λ i, match i with
                                 | 0%nat => undecodable "Expecting value"
                                 | _ => replies (JArr [])
                                 end)
                           (JStr "status"))))%nat.
Proof.
  pose proof (only_other_exceptions_short_circuit MAX_RETRIES INITIAL_DELAY_SECONDS
                (λ i, match i with 0%nat => undecodable "Expecting value" | _ => replies (JArr []) end)
                (JStr "status")) as (Hother & _ & Hjson & _).
  split.
  - apply (Hother 1%nat (AttributeError "'list' object has no attribute 'get'")).
    + unfold MAX_RETRIES. lia.
    + intros j Hj. assert (j = 0%nat) as -> by lia. by exists "Expecting value".
    + reflexivity.
    + reflexivity.
  - apply (Hjson 0%nat "Expecting value").
    + unfold MAX_RETRIES. lia.
    + intros j Hj. lia.
    + reflexivity.
Defined.

(** C7 as stated fails: when the body of every response is not JSON, the
    call does not stop at the first attempt with the critical-error text;
    it posts three times, sleeping in between, and returns the exhaustion
    text. *)
Lemma undecodable_body_is_retried :
  call_gemini_api MAX_RETRIES INITIAL_DELAY_SECONDS always_undecodable (JStr "status") =
  IO (Ok (JStr "Error: Failed to connect to the AI system after 3 attempts. Request Exception: Expecting value: line 1 column 1 (char 0)",
          JArr []))
     [EvPost (get_base_payload (JStr "status")); EvSleep 1;
      EvPost (get_base_payload (JStr "status")); EvSleep 2;
      EvPost (get_base_payload (JStr "status"))]
  ∧ JStr "Error: Failed to connect to the AI system after 3 attempts. Request Exception: Expecting value: line 1 column 1 (char 0)"
    ≠ critical (RequestException "Expecting value: line 1 column 1 (char 0)").
Proof. split; [reflexivity | discriminate]. Qed.

(** C10: with at least one attempt allowed, the loop always ends in a
    [return], so the statement after the loop is never reached; an
    iteration falls through to the next one only when another attempt
    remains, and no iteration lets an exception out. *)
Theorem fall_through_unreachable (max_retries : nat) (initial_delay : Z)
    (upstream : nat → py response) (user_query : json) :
  (0 < max_retries)%nat →
  (∃ returned,
     outcome (retry_loop max_retries initial_delay upstream user_query) = Ok (Some returned)
     ∧ outcome (call_gemini_api max_retries initial_delay upstream user_query) = Ok returned)
  ∧ (∀ payload i,
       outcome (attempt_body max_retries initial_delay upstream payload i) = Ok None →
       (i + 1 < max_retries)%nat)
  ∧ (∀ payload i, ∃ r,
       outcome (attempt_body max_retries initial_delay upstream payload i) = Ok r).
Proof.
  intros Hpos. split_and!.
  - destruct (call_shape max_retries initial_delay upstream user_query Hpos)
      as (k & _ & _ & _ & Hloop & Hcall).
    eexists. by rewrite Hloop, Hcall.
  - intros payload i. rewrite attempt_body_unfold.
    destruct (try_block (upstream i)) as [?|e]; [done|].
    destruct (is_RequestException e); [|done].
    case_bool_decide; [intros _; lia | done].
  - intros payload i. rewrite attempt_body_unfold.
    destruct (try_block (upstream i)) as [?|e]; [by eexists|].
    destruct (is_RequestException e); [|by eexists].
    case_bool_decide; by eexists.
Qed.

Lemma fall_through_unreachable_witness :
  (∃ returned,
     outcome (retry_loop MAX_RETRIES INITIAL_DELAY_SECONDS always_unreachable (JStr "status"))
     = Ok (Some returned)
     ∧ outcome (call_gemini_api MAX_RETRIES INITIAL_DELAY_SECONDS always_unreachable (JStr "status"))
       = Ok returned)
  ∧ (∀ payload i,
       outcome (attempt_body MAX_RETRIES INITIAL_DELAY_SECONDS always_unreachable payload i) = Ok None →
       (i + 1 < MAX_RETRIES)%nat)
  ∧ (∀ payload i, ∃ r,
       outcome (attempt_body MAX_RETRIES INITIAL_DELAY_SECONDS always_unreachable payload i) = Ok r).
Proof.
  apply (fall_through_unreachable MAX_RETRIES INITIAL_DELAY_SECONDS always_unreachable
           (JStr "status")).
  unfold MAX_RETRIES. lia.
Defined.

(** Without any attempt allowed the statement after the loop is what runs. *)
Lemma fall_through_without_attempts (initial_delay : Z) (upstream : nat → py response)
    (user_query : json) :
  call_gemini_api 0 initial_delay upstream user_query = IO (Ok (mysterious, JArr [])) [].
Proof. reflexivity. Qed.

(** ** The citation loops *)

Lemma read_attribution_ok (a : json) :
  attribution_ok a = true → read_attribution a = Ok (uri_value a, attr_title a).
Proof.
  unfold attribution_ok, read_attribution, uri_value, attr_uri, attr_title.
  destruct a as [| | | |?|fields]; try done. cbn.
  destruct (dict_lookup "web" fields) as [[| | | |?|web]|]; try done; cbn.
  by destruct (dict_lookup "uri" web) as [[]|]; try done;
    destruct (dict_lookup "title" web).
Qed.

Lemma elem_of_seen_keys (earlier : list json) (u : string) :
  HStr u ∈ seen_keys earlier ↔ u ≠ "" ∧ u ∈ omap attr_uri earlier.
Proof.
  unfold seen_keys. rewrite elem_of_list_to_set, list_elem_of_fmap. split.
  - intros (v & [= ->] & Hv). by apply list_elem_of_filter in Hv.
  - intros [Hne Hin]. exists u. split; [done|]. by apply list_elem_of_filter.
Qed.

Lemma is_new_spec (earlier : list json) (a : json) :
  is_new earlier a = true ↔
  ∃ u, attr_uri a = Some u ∧ u ≠ "" ∧ u ∉ omap attr_uri earlier.
Proof.
  unfold is_new. destruct (attr_uri a) as [u|]; [|naive_solver].
  rewrite andb_true_iff, negb_true_iff, String.eqb_neq, bool_decide_eq_true.
  naive_solver.
Qed.

Lemma unseen_spec (earlier : list json) (a : json) :
  unseen (uri_value a) (seen_keys earlier) =
  Ok (if is_new earlier a then HStr <$> attr_uri a else None).
Proof.
  unfold unseen, uri_value, is_new. destruct (attr_uri a) as [u|]; [|done]. cbn.
  destruct (String.eqb_spec u "") as [->|Hne]; [done|]. cbn.
  destruct (decide (HStr u ∈ seen_keys earlier)) as [Hin|Hout].
  - apply elem_of_seen_keys in Hin as [_ Hin]. by rewrite bool_decide_eq_false_2 by auto.
  - rewrite bool_decide_eq_true_2; [done|].
    intros Hin. apply Hout, elem_of_seen_keys. done.
Qed.

Lemma seen_keys_snoc (earlier : list json) (a : json) :
  seen_keys (earlier ++ [a]) =
  match (if is_new earlier a then HStr <$> attr_uri a else None) with
  | Some k => {[k]} ∪ seen_keys earlier
  | None => seen_keys earlier
  end.
Proof.
  apply set_eq. intros k.
  destruct (is_new earlier a) eqn:Hnew.
  - apply is_new_spec in Hnew as (u & Hu & Hne & Hout). rewrite Hu. cbn.
    unfold seen_keys. rewrite omap_app, filter_app, fmap_app, list_to_set_app.
    cbn. rewrite Hu. rewrite filter_cons_True by done. cbn. set_solver.
  - unfold seen_keys at 1. rewrite omap_app, filter_app, fmap_app, list_to_set_app.
    fold (seen_keys earlier). cbn.
    destruct (attr_uri a) as [u|] eqn:Hu; [|set_solver].
    destruct (decide (u = "")) as [->|Hne].
    + rewrite filter_cons_False by naive_solver. set_solver.
    + rewrite filter_cons_True by done. cbn.
      assert (HStr u ∈ seen_keys earlier); [|set_solver].
      apply elem_of_seen_keys. split; [done|].
      destruct (decide (u ∈ omap attr_uri earlier)) as [|Hout]; [done|].
      assert (is_new earlier a = true); [|congruence].
      apply is_new_spec. eauto.
Qed.

Lemma list_step_ok (records earlier : list json) (a : json) :
  attribution_ok a = true →
  list_step (records, seen_keys earlier) a =
  Ok (records ++ (if is_new earlier a then [citation_of a] else []),
      seen_keys (earlier ++ [a])).
Proof.
  intros Hok. unfold list_step. rewrite (read_attribution_ok a Hok). cbn.
  rewrite unseen_spec, seen_keys_snoc. cbn.
  destruct (is_new earlier a) eqn:Hnew; [|by rewrite app_nil_r].
  apply is_new_spec in Hnew as (u & Hu & _). by rewrite Hu.
Qed.

Lemma list_loop_ok (l : list json) : ∀ records earlier,
  forallb attribution_ok l = true →
  for_each list_step (records, seen_keys earlier) l =
  Ok (records ++ (citation_of <$> first_seen_after earlier l), seen_keys (earlier ++ l)).
Proof.
  induction l as [|a l IH]; intros records earlier Hok.
  - cbn. by rewrite !app_nil_r.
  - cbn in Hok. apply andb_true_iff in Hok as [Ha Hl].
    cbn [for_each]. rewrite (list_step_ok _ _ _ Ha). cbn.
    rewrite IH by done. rewrite fmap_app, <- !app_assoc. cbn.
    by destruct (is_new earlier a).
Qed.

Lemma first_seen_from (l : list json) : ∀ earlier,
  omap id (imap (λ i a, if is_new (earlier ++ take i l) a then Some a else None) l) =
  first_seen_after earlier l.
Proof.
  induction l as [|a l IH]; intros earlier; [done|].
  rewrite imap_cons. cbn [first_seen_after take]. rewrite app_nil_r.
  rewrite <- IH.
  rewrite (imap_ext _ (λ i x, if is_new ((earlier ++ [a]) ++ take i l) x then Some x else None)).
  - by destruct (is_new earlier a).
  - intros i x _. cbn. by rewrite <- app_assoc.
Qed.

Lemma first_seen_unfold (l : list json) : first_seen l = first_seen_after [] l.
Proof. apply (first_seen_from l []). Qed.

(** ** What the deduplication keeps *)

Lemma first_seen_after_uris (l : list json) : ∀ earlier u,
  u ∈ omap attr_uri (first_seen_after earlier l) ↔
  u ≠ "" ∧ u ∈ omap attr_uri l ∧ u ∉ omap attr_uri earlier.
Proof.
  induction l as [|a l IH]; intros earlier u.
  - cbn. split; [by intros ?%elem_of_nil | by intros (_ & ?%elem_of_nil & _)].
  - cbn [first_seen_after]. rewrite omap_app, elem_of_app, IH, omap_app, elem_of_app.
    destruct (is_new earlier a) eqn:Hnew.
    + apply is_new_spec in Hnew as (v & Hv & Hne & Hout). cbn. rewrite Hv. cbn.
      rewrite !list_elem_of_singleton, elem_of_cons.
      destruct (decide (u = v)) as [->|]; naive_solver.
    + cbn. destruct (attr_uri a) as [v|] eqn:Hv; cbn.
      * rewrite !list_elem_of_singleton, elem_of_cons.
        assert (v = "" ∨ v ∈ omap attr_uri earlier) as Hold.
        { destruct (decide (v = "")); [by left|right].
          destruct (decide (v ∈ omap attr_uri earlier)); [done|].
          assert (is_new earlier a = true); [|congruence].
          apply is_new_spec. eauto. }
        split; [set_solver|].
        intros (Hne & [->|Hin] & Hout); [naive_solver|]. right.
        split_and!; [done..|]. naive_solver.
      * split; [set_solver|]. intros (Hne & Hin & Hout). right.
        split_and!; [done..|]. intros [?|?%elem_of_nil]; done.
Qed.

Lemma first_seen_after_NoDup (l : list json) : ∀ earlier,
  NoDup (omap attr_uri (first_seen_after earlier l)).
Proof.
  induction l as [|a l IH]; intros earlier; [constructor|].
  cbn [first_seen_after]. rewrite omap_app. apply NoDup_app. split_and!.
  - destruct (is_new earlier a); cbn; [|constructor].
    destruct (attr_uri a); [apply NoDup_singleton | constructor].
  - intros u Hu Hlater. apply first_seen_after_uris in Hlater as (_ & _ & Hout).
    apply Hout. rewrite omap_app, elem_of_app. right.
    destruct (is_new earlier a); [done|]. by apply elem_of_nil in Hu.
  - apply IH.
Qed.

Lemma first_seen_after_has_uri (l : list json) : ∀ earlier,
  Forall (λ a, ∃ u, attr_uri a = Some u ∧ u ≠ "") (first_seen_after earlier l).
Proof.
  induction l as [|a l IH]; intros earlier; [constructor|].
  cbn [first_seen_after]. apply Forall_app. split; [|apply IH].
  destruct (is_new earlier a) eqn:Hnew; [|constructor].
  apply is_new_spec in Hnew as (u & Hu & Hne & _). repeat constructor. eauto.
Qed.

Lemma first_seen_after_sublist (l : list json) : ∀ earlier,
  first_seen_after earlier l `sublist_of` l.
Proof.
  induction l as [|a l IH]; intros earlier; [done|].
  cbn [first_seen_after]. destruct (is_new earlier a); cbn.
  - by apply sublist_skip.
  - by apply sublist_cons.
Qed.

Lemma length_omap_total {A B} (f : A → option B) (l : list A) :
  Forall (λ a, is_Some (f a)) l → length (omap f l) = length l.
Proof.
  induction 1 as [|a l [b Hb] _ IH]; [done|]. cbn. rewrite Hb. cbn. by rewrite IH.
Qed.

Lemma first_seen_count (l : list json) :
  length (first_seen l) = size (nonempty_uris l).
Proof.
  rewrite first_seen_unfold.
  rewrite <- (length_omap_total attr_uri).
  - rewrite <- (size_list_to_set (C := gset string)) by apply first_seen_after_NoDup.
    f_equal. apply set_eq. intros u. unfold nonempty_uris.
    rewrite !elem_of_list_to_set, first_seen_after_uris, list_elem_of_filter.
    split; [naive_solver|]. intros [? ?]. split_and!; [done..|]. by intros ?%elem_of_nil.
  - eapply Forall_impl; [apply first_seen_after_has_uri|]. naive_solver.
Qed.

(** An entry is kept exactly when it sits at a position where it is new. *)
Lemma first_seen_positions (l : list json) (a : json) :
  a ∈ first_seen l ↔ ∃ i, l !! i = Some a ∧ is_new (take i l) a = true.
Proof.
  unfold first_seen. rewrite list_elem_of_omap. split.
  - intros (o & (i & x & -> & Hx)%elem_of_lookup_imap_1 & Ho).
    destruct (is_new (take i l) x) eqn:Hnew; [|done]. cbn in Ho. simplify_eq. eauto.
  - intros (i & Hi & Hnew). exists (Some a). split; [|done].
    apply (elem_of_lookup_imap_2
             (λ i a, if is_new (take i l) a then Some a else None) l a i) in Hi.
    by rewrite Hnew in Hi.
Qed.

Lemma format_citations_list_ok (l : list json) :
  forallb attribution_ok l = true →
  format_citations_list (JArr l) = Ok (JArr (citation_of <$> first_seen l)).
Proof.
  intros Hok. unfold format_citations_list. cbn.
  change (∅ : gset hkey) with (seen_keys []).
  rewrite (list_loop_ok l [] [] Hok). cbn. by rewrite first_seen_unfold.
Qed.

(** C2 (as amended): on a list of well-shaped attributions the structured
    formatter returns one [{title, uri}] record for each entry that is the
    first to carry its non-empty uri, in input order, with that entry's
    title (or the default); an entry is kept exactly when its uri is
    present, not empty and carried by no entry before it, so entries whose
    uri is absent, null or empty are left out; the uris of the records are
    pairwise distinct, they are the non-empty uris of the input, and their
    number is the number of distinct non-empty uris. *)
Theorem format_citations_list_dedup (l : list json) :
  forallb attribution_ok l = true →
  format_citations_list (JArr l) = Ok (JArr (citation_of <$> first_seen l))
  ∧ first_seen l `sublist_of` l
  ∧ (∀ a, a ∈ first_seen l ↔
          ∃ i u, l !! i = Some a ∧ attr_uri a = Some u ∧ u ≠ ""
                 ∧ u ∉ omap attr_uri (take i l))
  ∧ NoDup (omap attr_uri (first_seen l))
  ∧ (∀ u, u ∈ omap attr_uri (first_seen l) ↔ u ≠ "" ∧ u ∈ omap attr_uri l)
  ∧ length (citation_of <$> first_seen l) = size (nonempty_uris l).
Proof.
  intros Hok. split_and!.
  - by apply format_citations_list_ok.
  - rewrite first_seen_unfold. apply first_seen_after_sublist.
  - intros a. rewrite first_seen_positions. setoid_rewrite is_new_spec. naive_solver.
  - rewrite first_seen_unfold. apply first_seen_after_NoDup.
  - intros u. rewrite first_seen_unfold, first_seen_after_uris.
    split; [naive_solver|]. intros [? ?]. split_and!; [done..|]. by intros ?%elem_of_nil.
  - rewrite length_fmap. apply first_seen_count.
Qed.

Lemma format_citations_list_dedup_witness :
  format_citations_list (JArr sample_sources) =
    Ok (JArr [citation (JStr "A") (JStr "https://a.com");
              citation (JStr "Untitled Source") (JStr "https://b.com")])
  ∧ first_seen sample_sources `sublist_of` sample_sources
  ∧ (∀ a, a ∈ first_seen sample_sources ↔
          ∃ i u, sample_sources !! i = Some a ∧ attr_uri a = Some u ∧ u ≠ ""
                 ∧ u ∉ omap attr_uri (take i sample_sources))
  ∧ NoDup (omap attr_uri (first_seen sample_sources))
  ∧ (∀ u, u ∈ omap attr_uri (first_seen sample_sources) ↔
          u ≠ "" ∧ u ∈ omap attr_uri sample_sources)
  ∧ length (citation_of <$> first_seen sample_sources) = size (nonempty_uris sample_sources).
Proof.
  apply (format_citations_list_dedup sample_sources). reflexivity.
Defined.

(** Outside the well-shaped lists the formatter can raise: a [web] that is
    null has no [get]. *)
Lemma null_web_raises :
  format_citations_list (JArr [JObj [("web", JNull)]]) =
  Raise (AttributeError "'NoneType' object has no attribute 'get'").
Proof. reflexivity. Qed.

(** C2 as stated fails: an entry whose uri is present but empty is left
    out, so the output has fewer records than the input has distinct
    non-null uris. *)
Lemma blank_uri_is_not_cited :
  format_citations_list (JArr blank_uri_sources) = Ok (JArr [])
  ∧ omap attr_uri blank_uri_sources = [""]
  ∧ length ([] : list json) ≠ size (distinct_uris blank_uri_sources).
Proof. split_and!; [reflexivity | reflexivity | by vm_compute]. Qed.

(** ** The CLI rendering against the structured one *)

Lemma record_link_citation (i : nat) (title uri : json) :
  record_link i (citation title uri) = cli_link (1 + Z.of_nat i) title uri.
Proof. reflexivity. Qed.

Lemma lines_of_snoc (records : list json) (title uri : json) :
  lines_of (records ++ [citation title uri]) =
  lines_of records ++ [cli_link (1 + Z.of_nat (length records)) title uri].
Proof.
  unfold lines_of. rewrite imap_app. cbn. by rewrite Nat.add_0_r.
Qed.

(** One iteration of the CLI loop against one iteration of the list loop,
    from related states. *)
Lemma cli_step_simulates (records : list json) (seen : gset hkey) (a : json) :
  cli_step (lines_of records, seen, 1 + Z.of_nat (length records)) a =
  list_step (records, seen) a ≫= λ '(records', seen'),
    Ok (lines_of records', seen', 1 + Z.of_nat (length records')).
Proof.
  unfold cli_step, list_step.
  destruct (read_attribution a) as [[uri title]|e]; [|done]. cbn.
  destruct (unseen uri seen) as [[k|]|e]; [|done..]. cbn.
  rewrite lines_of_snoc, length_app. cbn.
  by replace (1 + Z.of_nat (length records) + 1)
    with (1 + Z.of_nat (length records + 1)) by lia.
Qed.

Lemma cli_loop_simulates (l : list json) : ∀ records seen,
  for_each cli_step (lines_of records, seen, 1 + Z.of_nat (length records)) l =
  for_each list_step (records, seen) l ≫= λ '(records', seen'),
    Ok (lines_of records', seen', 1 + Z.of_nat (length records')).
Proof.
  induction l as [|a l IH]; intros records seen; [done|].
  cbn [for_each]. rewrite cli_step_simulates.
  destruct (list_step (records, seen) a) as [[records' seen']|e]; [|done].
  cbn. apply IH.
Qed.

Lemma format_citations_cli_render (l : list json) :
  format_citations_cli (JArr l) =
  format_citations_list (JArr l) ≫= λ citations, Ok (JStr (render citations)).
Proof.
  unfold format_citations_cli, format_citations_list.
  destruct l as [|a l]; [done|]. cbn [truthy negb py_iter]. cbn [mbind py_bind].
  change [source_log_header] with (lines_of []).
  change (1 : Z) with (1 + Z.of_nat (length ([] : list json))) at 1.
  rewrite cli_loop_simulates.
  destruct (for_each list_step ([], ∅) (a :: l)) as [[records seen]|e]; [|done].
  cbn. unfold lines_of. cbn [length]. rewrite length_imap.
  destruct records as [|r records]; [done|].
  rewrite bool_decide_eq_true_2 by (cbn; lia). done.
Qed.

(** C9: on every source list the CLI loop and the list loop run in lock
    step: both raise the same exception, or the lines the CLI loop collects
    after its header are the numbered links of the records the list loop
    collects, in the same order, with the same set of seen uris; hence the
    CLI rendering is the rendering of the structured formatter's output. *)
Theorem cli_links_are_structured_citations (l : list json) :
  for_each cli_step ([source_log_header], ∅, 1) l =
    (for_each list_step ([], ∅) l ≫= λ '(records, seen),
       Ok (source_log_header :: imap record_link records, seen,
           1 + Z.of_nat (length records)))
  ∧ format_citations_cli (JArr l) =
    (format_citations_list (JArr l) ≫= λ citations, Ok (JStr (render citations)))
  ∧ (∀ i title uri,
       record_link i (citation title uri) =
       pretty (1 + Z.of_nat i) +:+ ". [" +:+ py_str title +:+ "](" +:+ py_str uri +:+ ")").
Proof.
  split_and!.
  - apply (cli_loop_simulates l [] ∅).
  - apply format_citations_cli_render.
  - done.
Qed.

Lemma imap_fmap_links (kept : list json) :
  imap record_link (citation_of <$> kept) = imap attribution_link kept.
Proof. rewrite imap_fmap. by apply imap_ext. Qed.

(** C8 (as amended): the rendering of the empty list is the empty string;
    on a list of well-shaped attributions the rendering is the empty string
    when no entry carries a non-empty uri, and otherwise the header, one
    numbered link per distinct non-empty uri, counted from 1 in first-seen
    order, and the footer, joined by newlines. *)
Theorem format_citations_cli_banner (l : list json) :
  forallb attribution_ok l = true →
  format_citations_cli (JArr []) = Ok (JStr "")
  ∧ format_citations_cli (JArr l) =
      Ok (JStr (match first_seen l with
                | [] => ""
                | kept => String.concat newline
                            (source_log_header :: imap attribution_link kept)
                          +:+ source_log_footer
                end))
  ∧ (first_seen l = [] ↔ nonempty_uris l = ∅)
  ∧ NoDup (omap attr_uri (first_seen l))
  ∧ (∀ u, u ∈ omap attr_uri (first_seen l) ↔ u ≠ "" ∧ u ∈ omap attr_uri l).
Proof.
  intros Hok. split_and!.
  - done.
  - rewrite format_citations_cli_render, (format_citations_list_ok l Hok). cbn.
    unfold render_records, banner. rewrite imap_fmap_links.
    by destruct (first_seen l).
  - rewrite <- leibniz_equiv_iff, <- size_empty_iff, <- first_seen_count.
    by destruct (first_seen l).
  - rewrite first_seen_unfold. apply first_seen_after_NoDup.
  - intros u. rewrite first_seen_unfold, first_seen_after_uris.
    split; [naive_solver|]. intros [? ?]. split_and!; [done..|]. by intros ?%elem_of_nil.
Qed.

Lemma format_citations_cli_banner_witness :
  format_citations_cli (JArr []) = Ok (JStr "")
  ∧ format_citations_cli (JArr sample_sources) =
      Ok (JStr (String.concat newline
                  [source_log_header; "1. [A](https://a.com)";
                   "2. [Untitled Source](https://b.com)"]
                +:+ source_log_footer))
  ∧ (first_seen sample_sources = [] ↔ nonempty_uris sample_sources = ∅)
  ∧ NoDup (omap attr_uri (first_seen sample_sources))
  ∧ (∀ u, u ∈ omap attr_uri (first_seen sample_sources) ↔
          u ≠ "" ∧ u ∈ omap attr_uri sample_sources).
Proof.
  apply (format_citations_cli_banner sample_sources). reflexivity.
Defined.

(** C8 as stated fails: a non-empty source list whose only uri is the empty
    string is rendered as the empty string, with no banner and no link. *)
Lemma blank_uri_has_no_banner :
  untitled_blank_sources ≠ []
  ∧ omap attr_uri untitled_blank_sources = [""]
  ∧ format_citations_cli (JArr untitled_blank_sources) = Ok (JStr "")
  ∧ ¬ ∃ links, format_citations_cli (JArr untitled_blank_sources) = Ok (JStr (banner links)).
Proof.
  split_and!; [done | reflexivity | reflexivity |].
  intros [links Hlinks]. vm_compute in Hlinks. destruct links; discriminate.
Qed.

(** ** The handler *)

Lemma api_ask_rejects (upstream : nat → py response) (fields : list (string * json)) :
  (dict_lookup "query" fields = None
   ∨ ∃ s, dict_lookup "query" fields = Some (JStr s) ∧ strip s = "") →
  api_ask upstream (Ok (JObj fields)) =
  IO (Ok (400, JObj [("error", JStr "No query provided.")])) [].
Proof.
  unfold api_ask. intros [Hnone|(s & Hs & Hblank)]; cbn.
  - by rewrite Hnone.
  - rewrite Hs. cbn. by rewrite Hblank.
Qed.

Lemma api_ask_accepts (upstream : nat → py response) (fields : list (string * json))
    (s : string) (text sources : json) (log : list event) :
  dict_lookup "query" fields = Some (JStr s) →
  strip s ≠ "" →
  call_gemini_api MAX_RETRIES INITIAL_DELAY_SECONDS upstream (JStr (strip s)) =
    IO (Ok (text, sources)) log →
  api_ask upstream (Ok (JObj fields)) =
  IO (match format_citations_list sources with
      | Ok citations => Ok (ok_response (JStr (strip s)) text citations)
      | Raise e => Ok (500, JObj [("error", JStr ("Internal server error: " +:+ exn_str e))])
      end) log.
Proof.
  intros Hs Hne Hcall. unfold api_ask, lift. rewrite io_bind_ok.
  assert (py_get (JObj fields) "query" (JStr "") = Ok (JStr s)) as ->
    by (cbn; by rewrite Hs).
  rewrite io_bind_ok. cbn [py_strip]. rewrite io_bind_ok. cbn [truthy].
  apply String.eqb_neq in Hne. rewrite Hne. cbn [negb].
  rewrite Hcall, io_bind_ok. unfold try_except.
  destruct (format_citations_list sources) as [citations|e]; cbn; by rewrite ?app_nil_r.
Qed.

Lemma call_never_raises (max_retries : nat) (initial_delay : Z)
    (upstream : nat → py response) (user_query : json) :
  ∃ text sources,
    outcome (call_gemini_api max_retries initial_delay upstream user_query) = Ok (text, sources).
Proof.
  destruct max_retries as [|n].
  - by exists mysterious, (JArr []).
  - destruct (call_shape (S n) initial_delay upstream user_query) as (k & _ & _ & _ & _ & ->);
      [lia|].
    destruct (final (S n) (upstream k)) as [text sources]. by exists text, sources.
Qed.

Lemma contract_ok_final (max_retries : nat) (posted : py response) :
  contract_ok posted = true →
  ∃ text l, final max_retries posted = (JStr text, JArr l) ∧ forallb attribution_ok l = true.
Proof.
  unfold contract_ok, final.
  destruct (try_block posted) as [[text sources]|e].
  - intros [Htext Hsources]%andb_true_iff.
    destruct text; try done. destruct sources; try done. eauto.
  - intros _. destruct (is_RequestException e); by eexists _, [].
Qed.

Lemma contract_ok_failure (posted : py response) :
  (∃ e, try_block posted = Raise e) ∨ try_block posted = Ok (no_candidates, JArr []) →
  contract_ok posted = true.
Proof. unfold contract_ok. by intros [[e ->]| ->]. Qed.

(** A response of the shape the upstream contract describes keeps to it. *)
Lemma contract_ok_grounded_answer (text : string) (attributions : list json) :
  forallb attribution_ok attributions = true →
  contract_ok (replies (grounded_answer text attributions)) = true.
Proof.
  intros Hok. unfold contract_ok. cbn. destruct attributions as [|a l]; cbn; [done|].
  by rewrite <- Hok.
Qed.

(** A query that is null or not a string, and a body that is not an object,
    are answered with status 500 and no post. *)
Lemma non_string_query_is_server_error (upstream : nat → py response) :
  api_ask upstream (Ok (JObj [("query", JNull)])) =
    IO (Ok (500, JObj [("error",
                        JStr "Internal server error: 'NoneType' object has no attribute 'strip'")]))
       []
  ∧ api_ask upstream (Ok (JArr [])) =
    IO (Ok (500, JObj [("error",
                        JStr "Internal server error: 'list' object has no attribute 'get'")]))
       [].
Proof. split; reflexivity. Qed.

(** C4: a request whose [query] is missing, empty or blank after trimming
    is answered with status 400 and an [error] field, and the log of effects
    is empty: no post is made and [call_gemini_api] is not run. *)
Theorem blank_query_is_rejected (upstream : nat → py response)
    (fields : list (string * json)) :
  (dict_lookup "query" fields = None
   ∨ ∃ s, dict_lookup "query" fields = Some (JStr s) ∧ strip s = "") →
  outcome (api_ask upstream (Ok (JObj fields))) = Ok (400, JObj [("error", JStr "No query provided.")])
  ∧ effects (api_ask upstream (Ok (JObj fields))) = []
  ∧ posts (effects (api_ask upstream (Ok (JObj fields)))) = 0%nat.
Proof.
  intros Hblank. by rewrite (api_ask_rejects upstream fields Hblank).
Qed.

Lemma blank_query_is_rejected_witness :
  outcome (api_ask (λ _, replies (answer "ready")) (Ok (JObj [("query", JStr "   ")])))
    = Ok (400, JObj [("error", JStr "No query provided.")])
  ∧ effects (api_ask (λ _, replies (answer "ready")) (Ok (JObj [("query", JStr "   ")]))) = []
  ∧ posts (effects (api_ask (λ _, replies (answer "ready")) (Ok (JObj [("query", JStr "   ")]))))
    = 0%nat.
Proof.
  apply (blank_query_is_rejected (λ _, replies (answer "ready")) [("query", JStr "   ")]).
  right. exists "   ". split; reflexivity.
Defined.

(** C3 (as amended): for a query that is not blank, [call_gemini_api] never
    raises and always returns a pair; the handler answers 200 with that
    pair's text as [response] when [format_citations_list] accepts the
    sources and 500 otherwise; and when every attempt keeps to the upstream
    contract the answer is 200 and [response] is a string.  An attempt that
    raises, at transport level or otherwise, and one that finds no
    candidate keep to the contract. *)
Theorem nonblank_query_is_answered (upstream : nat → py response)
    (fields : list (string * json)) (s : string) :
  dict_lookup "query" fields = Some (JStr s) →
  strip s ≠ "" →
  (∃ text sources,
     outcome (call_gemini_api MAX_RETRIES INITIAL_DELAY_SECONDS upstream (JStr (strip s)))
       = Ok (text, sources)
     ∧ outcome (api_ask upstream (Ok (JObj fields))) =
       match format_citations_list sources with
       | Ok citations => Ok (ok_response (JStr (strip s)) text citations)
       | Raise e => Ok (500, JObj [("error", JStr ("Internal server error: " +:+ exn_str e))])
       end)
  ∧ ((∀ i, (i < MAX_RETRIES)%nat → contract_ok (upstream i) = true) →
     ∃ text records,
       outcome (api_ask upstream (Ok (JObj fields))) =
       Ok (ok_response (JStr (strip s)) (JStr text) (JArr records)))
  ∧ (∀ posted,
       (∃ e, try_block posted = Raise e) ∨ try_block posted = Ok (no_candidates, JArr []) →
       contract_ok posted = true).
Proof.
  intros Hs Hne.
  destruct (call_shape MAX_RETRIES INITIAL_DELAY_SECONDS upstream (JStr (strip s)))
    as (k & Hk & _ & _ & _ & Hcall); [unfold MAX_RETRIES; lia|].
  destruct (final MAX_RETRIES (upstream k)) as [text sources] eqn:Hfinal.
  rewrite (api_ask_accepts upstream fields s text sources _ Hs Hne Hcall), Hcall.
  split_and!.
  - by exists text, sources.
  - intros Hcontract.
    destruct (contract_ok_final MAX_RETRIES (upstream k) (Hcontract k Hk))
      as (t & l & Heq & Hl).
    rewrite Hfinal in Heq. simplify_eq. cbn [outcome].
    rewrite (format_citations_list_ok l Hl). by eexists _, _.
  - apply contract_ok_failure.
Qed.

Lemma nonblank_query_is_answered_witness :
  (∃ text sources,
     outcome (call_gemini_api MAX_RETRIES INITIAL_DELAY_SECONDS always_unreachable
                (JStr (strip " status ")))
       = Ok (text, sources)
     ∧ outcome (api_ask always_unreachable (Ok (JObj [("query", JStr " status ")]))) =
       match format_citations_list sources with
       | Ok citations => Ok (ok_response (JStr (strip " status ")) text citations)
       | Raise e => Ok (500, JObj [("error", JStr ("Internal server error: " +:+ exn_str e))])
       end)
  ∧ ((∀ i, (i < MAX_RETRIES)%nat → contract_ok (always_unreachable i) = true) →
     ∃ text records,
       outcome (api_ask always_unreachable (Ok (JObj [("query", JStr " status ")]))) =
       Ok (ok_response (JStr (strip " status ")) (JStr text) (JArr records)))
  ∧ (∀ posted,
       (∃ e, try_block posted = Raise e) ∨ try_block posted = Ok (no_candidates, JArr []) →
       contract_ok posted = true).
Proof.
  apply (nonblank_query_is_answered always_unreachable [("query", JStr " status ")] " status ").
  - reflexivity.
  - by vm_compute.
Defined.

(** C3 as stated fails: a decoded body whose first part carries a null
    [text] makes the handler answer 200 with a null [response]. *)
Lemma null_text_is_passed_on :
  outcome (api_ask (λ _, replies null_text) (Ok (JObj [("query", JStr "status")]))) =
    Ok (ok_response (JStr "status") JNull (JArr []))
  ∧ field "response" (ok_response (JStr "status") JNull (JArr [])).2 = JNull
  ∧ is_str JNull = false.
Proof. split_and!; reflexivity. Qed.

(** ** Further facts about the call *)

Lemma posted_schedule initial_delay payload n :
  posted (schedule initial_delay payload n) = replicate n payload.
Proof.
  unfold posted, schedule. induction n as [|n IH]; [done|].
  rewrite seq_S, flat_map_app, omap_app, IH. cbn [flat_map]. rewrite app_nil_r.
  replace (S n) with (n + 1)%nat by lia. rewrite replicate_add. by destruct n.
Qed.


Lemma posts_carry_the_query_aux (max_retries : nat) (initial_delay : Z)
    (upstream : nat → py response) (user_query : json) :
  (0 < max_retries)%nat →
  ∃ k, (k < max_retries)%nat
     ∧ posted (effects (call_gemini_api max_retries initial_delay upstream user_query)) =
       replicate (S k) (get_base_payload user_query).
Proof.
  intros Hpos.
  destruct (call_shape max_retries initial_delay upstream user_query Hpos)
    as (k & Hk & _ & _ & _ & Hcall).
  exists k. rewrite Hcall. cbn [effects]. by rewrite posted_schedule.
Qed.

Lemma schedule_alternating initial_delay payload k :
  schedule initial_delay payload (S k) =
  alternating payload (map (λ j, initial_delay * 2 ^ Z.of_nat j) (seq 0 k)).
Proof.
  unfold alternating, schedule. induction k as [|k IH]; [done|].
  rewrite (seq_S (S k)), flat_map_app, IH, (seq_S k), map_app, flat_map_app.
  cbn [flat_map map attempt_events Nat.add app]. by rewrite ?app_nil_r.
Qed.

(** X1: the log of a call is a post followed by sleep and post in turn: it
    begins and ends with a post, exactly one sleep stands between two
    consecutive posts and none anywhere else; every post carries the
    payload built from the query; and there are at least one and at most
    [max_retries] posts. *)
Theorem posts_carry_the_query (max_retries : nat) (initial_delay : Z)
    (upstream : nat → py response) (user_query : json) :
  (0 < max_retries)%nat →
  let log := effects (call_gemini_api max_retries initial_delay upstream user_query) in
  ∃ delays,
    (length delays < max_retries)%nat
    ∧ log = alternating (get_base_payload user_query) delays
    ∧ sleeps log = delays
    ∧ posted log = replicate (S (length delays)) (get_base_payload user_query)
    ∧ last log = Some (EvPost (get_base_payload user_query)).
Proof.
  intros Hpos log. subst log.
  destruct (call_shape max_retries initial_delay upstream user_query Hpos)
    as (k & Hk & _ & _ & _ & Hcall).
  exists (map (λ j, initial_delay * 2 ^ Z.of_nat j) (seq 0 k)).
  rewrite Hcall. cbn [effects].
  rewrite posted_schedule, sleeps_schedule, length_map, length_seq.
  split_and!; [done|apply schedule_alternating|done|done|].
  unfold schedule. rewrite seq_S, flat_map_app. cbn [flat_map]. rewrite app_nil_r, last_app.
  by destruct k.
Qed.

Lemma posts_carry_the_query_witness :
  let log := effects (call_gemini_api MAX_RETRIES INITIAL_DELAY_SECONDS
                        (two_failures_then (answer "ready")) (JStr "status")) in
  ∃ delays,
    (length delays < MAX_RETRIES)%nat
    ∧ log = alternating (get_base_payload (JStr "status")) delays
    ∧ sleeps log = delays
    ∧ posted log = replicate (S (length delays)) (get_base_payload (JStr "status"))
    ∧ last log = Some (EvPost (get_base_payload (JStr "status"))).
Proof.
  apply (posts_carry_the_query MAX_RETRIES INITIAL_DELAY_SECONDS
           (two_failures_then (answer "ready")) (JStr "status")).
  unfold MAX_RETRIES. lia.
Defined.



(** ** Further facts about the extraction *)

Lemma grounding_tail (candidate_fields : list (string * json)) (text : json) :
  metadata_ok candidate_fields →
  (grounding_metadata ← py_get (JObj candidate_fields) "groundingMetadata" JNull;
   grounded ← (if truthy grounding_metadata
               then attributions ← py_get grounding_metadata "groundingAttributions" JNull;
                    Ok (truthy attributions)
               else Ok false);
   sources ← (if grounded : bool
              then py_item grounding_metadata "groundingAttributions"
              else Ok (JArr []));
   Ok (text, sources)) = Ok (text, attributions_of candidate_fields).
Proof.
  intros Hok. unfold attributions_of, metadata_ok in *. cbn.
  destruct (dict_lookup "groundingMetadata" candidate_fields) as [v|]; [|done].
  destruct (truthy v) eqn:Hv.
  - destruct (Hok v eq_refl Hv) as [metadata ->]. cbn.
    destruct (dict_lookup "groundingAttributions" metadata) as [a|] eqn:Ha; cbn; [|done].
    by destruct (truthy a); cbn; rewrite ?Ha.
  - cbn. by destruct v as [| | | |[]|[]].
Qed.

(** X3: from a decoded body the extraction reads [candidates[0]],
    [content.parts[0].text] and [groundingMetadata.groundingAttributions]
    and nothing else: further candidates, further parts and other keys do
    not matter; attributions that are absent or falsy come back as the empty
    list. *)
Theorem extract_reads_wire_path
    (result_fields candidate_fields content_fields part_fields : list (string * json))
    (other_candidates other_parts : list json) (text : json) :
  dict_lookup "candidates" result_fields = Some (JArr (JObj candidate_fields :: other_candidates)) →
  dict_lookup "content" candidate_fields = Some (JObj content_fields) →
  dict_lookup "parts" content_fields = Some (JArr (JObj part_fields :: other_parts)) →
  dict_lookup "text" part_fields = Some text →
  metadata_ok candidate_fields →
  extract (JObj result_fields) = Ok (text, attributions_of candidate_fields).
Proof.
  intros Hcandidates Hcontent Hparts Htext Hmeta.
  unfold extract. cbn [py_get]. rewrite Hcandidates. cbn [mbind py_bind py_first].
  assert (truthy (JObj candidate_fields) = true) as ->
    by (by destruct candidate_fields).
  cbn [negb py_get]. rewrite Hcontent. cbn [mbind py_bind py_get].
  rewrite Hparts. cbn [mbind py_bind py_first py_get]. rewrite Htext.
  cbn [mbind py_bind]. by apply grounding_tail.
Qed.

Lemma extract_reads_wire_path_witness :
  extract (grounded_answer "ready" sample_sources) =
  Ok (JStr "ready",
      attributions_of
        [("content", JObj [("parts", JArr [JObj [("text", JStr "ready")]])]);
         ("groundingMetadata", JObj [("groundingAttributions", JArr sample_sources)])]).
Proof.
  apply (extract_reads_wire_path
           [("candidates",
             JArr [JObj [("content", JObj [("parts", JArr [JObj [("text", JStr "ready")]])]);
                         ("groundingMetadata",
                          JObj [("groundingAttributions", JArr sample_sources)])]])]
           [("content", JObj [("parts", JArr [JObj [("text", JStr "ready")]])]);
            ("groundingMetadata", JObj [("groundingAttributions", JArr sample_sources)])]
           [("parts", JArr [JObj [("text", JStr "ready")]])]
           [("text", JStr "ready")] [] [] (JStr "ready")
           eq_refl eq_refl eq_refl eq_refl).
  intros v [= <-] _. by eexists.
Defined.

(** Whatever the reading of the grounding metadata does, it leaves the
    text alone. *)
Lemma grounding_keeps_text (candidate : json) (extracted text sources : json) :
  (grounding_metadata ← py_get candidate "groundingMetadata" JNull;
   grounded ← (if truthy grounding_metadata
               then attributions ← py_get grounding_metadata "groundingAttributions" JNull;
                    Ok (truthy attributions)
               else Ok false);
   sources ← (if grounded : bool
              then py_item grounding_metadata "groundingAttributions"
              else Ok (JArr []));
   Ok (extracted, sources)) = Ok (text, sources) →
  text = extracted.
Proof.
  intros H.
  destruct (py_get candidate "groundingMetadata" JNull) as [metadata|]; [|done]. cbn in H.
  destruct (truthy metadata); cbn in H.
  - destruct (py_get metadata "groundingAttributions" JNull) as [a|]; [|done]. cbn in H.
    destruct (truthy a); cbn in H.
    + destruct (py_item metadata "groundingAttributions"); [|done]. cbn in H. by simplify_eq.
    + by simplify_eq.
  - by simplify_eq.
Qed.

(** X4: for a first candidate that is a non-empty object but has no
    [content], or whose content has no [parts], or whose first part has no
    [text], the missing text raises nothing: whenever the extraction
    returns, the text is the text-not-found placeholder; and it does
    return, with the attributions of the candidate, when the candidate's
    [groundingMetadata] is absent, falsy or an object. *)
Theorem missing_text_gives_placeholder
    (result_fields candidate_fields : list (string * json)) (other_candidates : list json) :
  dict_lookup "candidates" result_fields = Some (JArr (JObj candidate_fields :: other_candidates)) →
  candidate_fields ≠ [] →
  (dict_lookup "content" candidate_fields = None
   ∨ (∃ content_fields,
        dict_lookup "content" candidate_fields = Some (JObj content_fields)
        ∧ (dict_lookup "parts" content_fields = None
           ∨ ∃ part_fields other_parts,
               dict_lookup "parts" content_fields = Some (JArr (JObj part_fields :: other_parts))
               ∧ dict_lookup "text" part_fields = None))) →
  (∀ text sources,
     extract (JObj result_fields) = Ok (text, sources) → text = text_placeholder)
  ∧ (metadata_ok candidate_fields →
     extract (JObj result_fields) = Ok (text_placeholder, attributions_of candidate_fields)).
Proof.
  intros Hcandidates Hne Hmissing.
  unfold extract. cbn [py_get]. rewrite Hcandidates. cbn [mbind py_bind py_first].
  assert (truthy (JObj candidate_fields) = true) as ->
    by (by destruct candidate_fields).
  cbn [negb].
  assert (∀ A (k : json → py A),
            (content ← py_get (JObj candidate_fields) "content" (JObj []);
             parts ← py_get content "parts" (JArr [JObj []]);
             part ← py_first parts;
             text ← py_get part "text" (JStr "Error: Text content not found.");
             k text) = k text_placeholder) as Hhead.
  { intros A k. cbn [py_get].
    destruct Hmissing as [Hc|(content_fields & Hc & [Hp|(part_fields & other_parts & Hp & Ht)])];
      rewrite Hc; cbn [mbind py_bind py_get py_first dict_lookup];
      rewrite ?Hp; cbn [mbind py_bind py_get py_first dict_lookup];
      by rewrite ?Ht. }
  rewrite (Hhead (json * json)%type). split.
  - intros text sources. apply grounding_keeps_text.
  - apply grounding_tail.
Qed.

Lemma missing_text_gives_placeholder_witness :
  (∀ text sources,
     extract (JObj [("candidates", JArr [JObj [("finishReason", JStr "SAFETY")]])])
       = Ok (text, sources) → text = text_placeholder)
  ∧ (metadata_ok [("finishReason", JStr "SAFETY")] →
     extract (JObj [("candidates", JArr [JObj [("finishReason", JStr "SAFETY")]])]) =
     Ok (text_placeholder, attributions_of [("finishReason", JStr "SAFETY")])).
Proof.
  apply (missing_text_gives_placeholder
           [("candidates", JArr [JObj [("finishReason", JStr "SAFETY")]])]
           [("finishReason", JStr "SAFETY")] [] eq_refl).
  - done.
  - by left.
Defined.

(** A truthy [groundingMetadata] that is not an object makes the extraction
    raise, text or no text. *)
Example number_as_metadata_raises :
  extract (JObj [("candidates", JArr [JObj [("groundingMetadata", JInt 5)]])]) =
  Raise (AttributeError "'int' object has no attribute 'get'").
Proof. reflexivity. Qed.

(** X5: a candidate whose [parts] list is present but empty is not covered
    by the defaults: subscripting it raises [IndexError], and a call that
    reaches such a body returns the critical-error text with an empty
    source list, without a further attempt. *)
Theorem empty_parts_is_critical (max_retries : nat) (initial_delay : Z)
    (upstream : nat → py response) (user_query : json) (i : nat)
    (result_fields candidate_fields content_fields : list (string * json))
    (other_candidates : list json) :
  (i < max_retries)%nat →
  (∀ j, (j < i)%nat → transport_failure (upstream j)) →
  upstream i = replies (JObj result_fields) →
  dict_lookup "candidates" result_fields = Some (JArr (JObj candidate_fields :: other_candidates)) →
  dict_lookup "content" candidate_fields = Some (JObj content_fields) →
  dict_lookup "parts" content_fields = Some (JArr []) →
  extract (JObj result_fields) = Raise (IndexError "list index out of range")
  ∧ call_gemini_api max_retries initial_delay upstream user_query =
    IO (Ok (JStr "Critical Error: An unexpected issue prevented processing. Exception: list index out of range",
            JArr []))
       (schedule initial_delay (get_base_payload user_query) (S i)).
Proof.
  intros Hi Hbefore Hup Hcandidates Hcontent Hparts.
  assert (extract (JObj result_fields) = Raise (IndexError "list index out of range")) as Hraise.
  { unfold extract. cbn [py_get]. rewrite Hcandidates. cbn [mbind py_bind py_first].
    assert (truthy (JObj candidate_fields) = true) as ->
      by (by destruct candidate_fields).
    cbn [negb py_get]. rewrite Hcontent. cbn [mbind py_bind py_get]. by rewrite Hparts. }
  split; [done|].
  by rewrite (handling_error_is_critical max_retries initial_delay upstream user_query i
                (JObj result_fields) _ Hi Hbefore Hup Hraise).
Qed.

Lemma empty_parts_is_critical_witness :
  extract (JObj [("candidates", JArr [JObj [("content", JObj [("parts", JArr [])])]])])
    = Raise (IndexError "list index out of range")
  ∧ call_gemini_api MAX_RETRIES INITIAL_DELAY_SECONDS
      (λ _, replies (JObj [("candidates", JArr [JObj [("content", JObj [("parts", JArr [])])]])]))
      (JStr "status") =
    IO (Ok (JStr "Critical Error: An unexpected issue prevented processing. Exception: list index out of range",
            JArr []))
       (schedule INITIAL_DELAY_SECONDS (get_base_payload (JStr "status")) 1).
Proof.
  apply (empty_parts_is_critical MAX_RETRIES INITIAL_DELAY_SECONDS
           (λ _, replies (JObj [("candidates", JArr [JObj [("content", JObj [("parts", JArr [])])]])]))
           (JStr "status") 0
           [("candidates", JArr [JObj [("content", JObj [("parts", JArr [])])]])]
           [("content", JObj [("parts", JArr [])])]
           [("parts", JArr [])] []).
  - unfold MAX_RETRIES. lia.
  - intros j Hj. lia.
  - reflexivity.
  - reflexivity.
  - reflexivity.
  - reflexivity.
Defined.

Lemma extract_sources (result text sources : json) :
  extract result = Ok (text, sources) → sources = JArr [] ∨ truthy sources = true.
Proof.
  unfold extract, py_get, py_first, py_item.
  intros H.
  repeat (simplify_eq/=; try (by left); try (by right);
          match goal with
          | H : context [match ?x with _ => _ end] |- _ => destruct x eqn:?
          end).
Qed.

(** X6: with the retry settings of the program, whatever upstream does,
    the sources a call returns are the empty list or a truthy value, never
    [None], [0], [False], an empty string or an empty dict. *)
Theorem returned_sources_are_empty_list_or_truthy
    (upstream : nat → py response) (user_query : json) :
  ∃ text sources,
    outcome (call_gemini_api MAX_RETRIES INITIAL_DELAY_SECONDS upstream user_query)
      = Ok (text, sources)
    ∧ (sources = JArr [] ∨ truthy sources = true).
Proof.
  destruct (call_shape MAX_RETRIES INITIAL_DELAY_SECONDS upstream user_query)
    as (k & Hk & _ & _ & _ & Hcall); [unfold MAX_RETRIES; lia|].
  destruct (final MAX_RETRIES (upstream k)) as [text sources] eqn:Hfinal.
  exists text, sources. rewrite Hcall. split; [done|].
  unfold final, try_block in Hfinal.
  destruct (upstream k) as [[[d|] [result|e]]|e]; cbn in Hfinal.
  - simplify_eq. by left.
  - simplify_eq. by left.
  - destruct (extract result) as [[t s]|e] eqn:Hextract; cbn in Hfinal.
    + simplify_eq. by eapply extract_sources.
    + destruct (is_RequestException e); simplify_eq; by left.
  - destruct (is_RequestException e); simplify_eq; by left.
  - destruct (is_RequestException e); simplify_eq; by left.
Qed.

(** ** Further facts about the citation formatters *)

Lemma for_each_app {S A} (body : S → A → py S) (l1 l2 : list A) (state : S) :
  for_each body state (l1 ++ l2) = (for_each body state l1 ≫= λ s, for_each body s l2).
Proof.
  revert state. induction l1 as [|x l1 IH]; intros state; simpl; [done|].
  destruct (body state x) as [s|e]; simpl; [apply IH | done].
Qed.

(** One iteration of the list loop either leaves the state alone or appends
    one record with a truthy uri whose key was not seen. *)
Lemma list_step_inv (citations citations' : list json) (seen seen' : gset hkey) (a : json) :
  list_step (citations, seen) a = Ok (citations', seen') →
  (citations' = citations ∧ seen' = seen)
  ∨ ∃ uri title k,
      read_attribution a = Ok (uri, title) ∧ truthy uri = true ∧ py_hash uri = Ok k
      ∧ (k ∉ seen) ∧ citations' = citations ++ [citation title uri] ∧ seen' = {[k]} ∪ seen.
Proof.
  unfold list_step, unseen.
  destruct (read_attribution a) as [[uri title]|e]; [|done]. cbn.
  destruct (truthy uri) eqn:Htruthy; cbn.
  - destruct (py_hash uri) as [k|e] eqn:Hhash; [|done]. cbn.
    destruct (decide (k ∈ seen)); cbn; intros [= <- <-]; [by left|].
    right. by exists uri, title, k.
  - intros [= <- <-]. by left.
Qed.

Lemma record_key_citation (title uri : json) (k : hkey) :
  py_hash uri = Ok k → record_key (citation title uri) = Some k.
Proof. unfold record_key. cbn. by intros ->. Qed.

Lemma list_loop_inv (l : list json) : ∀ (source : list json) citations seen citations' seen',
  for_each list_step (citations, seen) l = Ok (citations', seen') →
  l ⊆ source →
  Forall (λ r, ∃ a uri title, a ∈ source ∧ read_attribution a = Ok (uri, title)
                              ∧ r = citation title uri ∧ truthy uri = true
                              ∧ is_Some (record_key r)) citations →
  NoDup (omap record_key citations) →
  (∀ k, k ∈ omap record_key citations ↔ k ∈ seen) →
  citations `prefix_of` citations'
  ∧ (length citations' ≤ length citations + length l)%nat
  ∧ Forall (λ r, ∃ a uri title, a ∈ source ∧ read_attribution a = Ok (uri, title)
                                ∧ r = citation title uri ∧ truthy uri = true
                                ∧ is_Some (record_key r)) citations'
  ∧ NoDup (omap record_key citations')
  ∧ (∀ k, k ∈ omap record_key citations' ↔ k ∈ seen').
Proof.
  induction l as [|a l IH]; intros source citations seen citations' seen' Hrun Hsub Hgood Hnodup Hseen.
  - cbn in Hrun. simplify_eq. split_and!; [done|lia|done..].
  - cbn [for_each] in Hrun.
    destruct (list_step (citations, seen) a) as [[c1 s1]|e] eqn:Hstep; [|done]. cbn in Hrun.
    assert (a ∈ source) as Ha by set_solver.
    assert (l ⊆ source) as Hl by set_solver.
    apply list_step_inv in Hstep as [[-> ->]|(uri & title & k & Hread & Htruthy & Hhash & Hfresh & -> & ->)].
    + destruct (IH source _ _ _ _ Hrun Hl Hgood Hnodup Hseen) as (? & ? & ? & ? & ?).
      split_and!; [done|cbn; lia|done..].
    + pose proof (record_key_citation title uri k Hhash) as Hkey.
      destruct (IH source _ _ _ _ Hrun Hl) as (Hpre & Hlen & ? & ? & ?).
      * apply Forall_app. split; [done|]. repeat constructor.
        exists a, uri, title. rewrite Hkey. eauto 10.
      * rewrite omap_app. cbn. rewrite Hkey. apply NoDup_app. split_and!; [done| |].
        -- intros k' Hk' ->%list_elem_of_singleton. by apply Hfresh, Hseen.
        -- apply NoDup_singleton.
      * intros k'. rewrite omap_app, elem_of_app. cbn. rewrite Hkey.
        rewrite list_elem_of_singleton, Hseen. set_solver.
      * split_and!; [|rewrite length_app in Hlen; cbn in *; lia|done..].
        etrans; [|done]. by apply prefix_app_r.
Qed.

(** X7: on every JSON list on which the structured formatter returns, the
    result has at most as many records as the list has entries; each record
    is the [{title, uri}] of an entry of the list, with a truthy uri; and
    no two records have equal uris, also across types ([1] and [True] are
    one key). *)
Theorem structured_citations_are_distinct (l : list json) (out : json) :
  format_citations_list (JArr l) = Ok out →
  ∃ records,
    out = JArr records
    ∧ (length records ≤ length l)%nat
    ∧ Forall (λ r, ∃ a uri title, a ∈ l ∧ read_attribution a = Ok (uri, title)
                                  ∧ r = citation title uri ∧ truthy uri = true
                                  ∧ is_Some (record_key r)) records
    ∧ NoDup (omap record_key records).
Proof.
  unfold format_citations_list. cbn.
  destruct (for_each list_step ([], ∅) l) as [[records seen]|e] eqn:Hrun; [|done].
  cbn. intros [= <-]. exists records.
  destruct (list_loop_inv l l [] ∅ records seen Hrun) as (_ & Hlen & Hgood & Hnodup & _);
    [done|constructor|constructor|set_solver|].
  split_and!; [done|cbn in Hlen; lia|done..].
Qed.

Lemma structured_citations_are_distinct_witness :
  ∃ records,
    JArr [citation (JStr "one") (JInt 1); citation (JStr "Untitled Source") (JStr "u")]
      = JArr records
    ∧ (length records ≤ length [JObj [("web", JObj [("uri", JInt 1); ("title", JStr "one")])];
                                JObj [("web", JObj [("uri", JBool true)])];
                                JObj [("web", JObj [("uri", JStr "u")])]])%nat
    ∧ Forall (λ r, ∃ a uri title,
                a ∈ [JObj [("web", JObj [("uri", JInt 1); ("title", JStr "one")])];
                     JObj [("web", JObj [("uri", JBool true)])];
                     JObj [("web", JObj [("uri", JStr "u")])]]
                ∧ read_attribution a = Ok (uri, title)
                ∧ r = citation title uri ∧ truthy uri = true
                ∧ is_Some (record_key r)) records
    ∧ NoDup (omap record_key records).
Proof.
  apply (structured_citations_are_distinct
           [JObj [("web", JObj [("uri", JInt 1); ("title", JStr "one")])];
            JObj [("web", JObj [("uri", JBool true)])];
            JObj [("web", JObj [("uri", JStr "u")])]]).
  reflexivity.
Defined.

(** X8: citations are stable under appending: if the formatter returns on
    a list followed by further entries, it returns on the list alone, and
    that result is a prefix of the longer one. *)
Theorem earlier_citations_are_kept (l1 l2 : list json) (out : list json) :
  format_citations_list (JArr (l1 ++ l2)) = Ok (JArr out) →
  ∃ out1, format_citations_list (JArr l1) = Ok (JArr out1) ∧ out1 `prefix_of` out.
Proof.
  unfold format_citations_list. cbn. rewrite for_each_app.
  destruct (for_each list_step ([], ∅) l1) as [[c1 s1]|e] eqn:Hfirst; [|done]. cbn.
  destruct (for_each list_step (c1, s1) l2) as [[c2 s2]|e] eqn:Hsecond; [|done]. cbn.
  intros [= <-]. exists c1. split; [done|].
  clear Hfirst. revert c1 s1 Hsecond.
  induction l2 as [|a l2 IH]; intros c1 s1 Hsecond.
  - cbn in Hsecond. by simplify_eq.
  - cbn [for_each] in Hsecond.
    destruct (list_step (c1, s1) a) as [[c s]|e] eqn:Hstep; [|done]. cbn in Hsecond.
    apply list_step_inv in Hstep as [[-> ->]|(? & ? & ? & _ & _ & _ & _ & -> & ->)].
    + by eapply IH.
    + etrans; [|by eapply IH]. by apply prefix_app_r.
Qed.

Lemma earlier_citations_are_kept_witness :
  ∃ out1, format_citations_list (JArr (take 1 sample_sources)) = Ok (JArr out1)
          ∧ out1 `prefix_of` [citation (JStr "A") (JStr "https://a.com");
                              citation (JStr "Untitled Source") (JStr "https://b.com")].
Proof.
  apply (earlier_citations_are_kept (take 1 sample_sources) (drop 1 sample_sources)).
  reflexivity.
Defined.

(** Whether an iteration of the list loop raises depends on the entry
    alone, not on what was seen before. *)
Lemma list_step_accepts (state : list json * gset hkey) (a : json) :
  (∃ state', list_step state a = Ok state') ↔ accepted a = true.
Proof.
  destruct state as [citations seen].
  unfold list_step, read_attribution, unseen, accepted, py_get, py_hash, truthy. cbn.
  repeat (case_match; simplify_eq/=);
    (split; [intros [? ?]; by simplify_eq/= | intros ?; try done; by eexists]).
Qed.

Lemma list_loop_accepts (l : list json) : ∀ state,
  (∃ state', for_each list_step state l = Ok state') ↔ forallb accepted l = true.
Proof.
  induction l as [|a l IH]; intros state; cbn [for_each forallb].
  - split; [done|by eexists].
  - rewrite andb_true_iff, <- (list_step_accepts state a). split.
    + intros [state' Hrun].
      destruct (list_step state a) as [s|e]; [|done]. cbn in Hrun.
      split; [by eexists|]. apply (IH s). by eexists.
    + intros [[s Hs] Hl]. rewrite Hs. cbn. by apply IH.
Qed.

(** X9: the structured formatter returns on a JSON list exactly when every
    entry is an object whose [web], if present, is an object whose [uri] is
    not a non-empty list or dict; order and repetition play no part.  The
    CLI formatter returns on exactly the same lists. *)
Theorem formatters_accept_the_same_lists (l : list json) :
  ((∃ out, format_citations_list (JArr l) = Ok out) ↔ forallb accepted l = true)
  ∧ ((∃ out, format_citations_cli (JArr l) = Ok out) ↔ forallb accepted l = true).
Proof.
  assert ((∃ out, format_citations_list (JArr l) = Ok out) ↔ forallb accepted l = true) as Hlist.
  { rewrite <- (list_loop_accepts l ([], ∅)). unfold format_citations_list. cbn. split.
    - intros [out Hout]. destruct (for_each list_step ([], ∅) l) as [s|e]; [by eexists|done].
    - intros [[c s] ->]. by eexists. }
  split; [done|].
  rewrite <- Hlist, format_citations_cli_render. split.
  - intros [out Hout]. destruct (format_citations_list (JArr l)) as [r|e]; [by eexists|done].
  - intros [r ->]. by eexists.
Qed.

Lemma cli_step_raises_on_str (state : list string * gset hkey * Z) (s : string) :
  ∃ e, cli_step state (JStr s) = Raise e.
Proof. destruct state as [[? ?] ?]. by eexists. Qed.

(** X10: the CLI formatter returns exactly in two cases.  On a falsy value
    it returns the empty string without looking inside.  On a truthy value
    it returns only if the value is a list on which the structured
    formatter returns; the result is then the empty string if there is no
    record, and otherwise the header, one numbered link per record, in
    order, and the footer.  It raises on every other value. *)
Theorem cli_rendering_follows_the_records (sources out : json) :
  format_citations_cli sources = Ok out
  ↔ (truthy sources = false ∧ out = JStr "")
    ∨ ∃ items records,
        sources = JArr items ∧ items ≠ []
        ∧ format_citations_list sources = Ok (JArr records)
        ∧ out = JStr (render_records records).
Proof.
  split.
  - intros Hout. destruct (truthy sources) eqn:Htruthy.
    + right. destruct sources as [|b|n|s|items|fields].
      * done.
      * unfold format_citations_cli in Hout. rewrite Htruthy in Hout. done.
      * unfold format_citations_cli in Hout. rewrite Htruthy in Hout. done.
      * destruct s as [|c s]; [done|].
        unfold format_citations_cli in Hout. cbn in Hout. done.
      * destruct items as [|a items]; [done|].
        rewrite format_citations_cli_render in Hout.
        unfold format_citations_list in *. cbn [py_iter mbind py_bind] in *.
        destruct (for_each list_step ([], ∅) (a :: items)) as [[records seen]|e]; [|done].
        cbn in Hout. simplify_eq. by exists (a :: items), records.
      * destruct fields as [|[k v] fields]; [done|].
        unfold format_citations_cli in Hout. cbn in Hout. done.
    + left. unfold format_citations_cli in Hout. rewrite Htruthy in Hout.
      cbn in Hout. by simplify_eq.
  - intros [[Hfalsy ->]|(items & records & -> & Hne & Hlist & ->)].
    + unfold format_citations_cli. by rewrite Hfalsy.
    + by rewrite format_citations_cli_render, Hlist.
Qed.

(** A list of one empty dict is truthy and holds no link: the structured
    formatter returns no record and the CLI formatter the empty string. *)
Example lone_empty_dict_renders_nothing :
  truthy (JArr [JObj []]) = true
  ∧ format_citations_list (JArr [JObj []]) = Ok (JArr [])
  ∧ format_citations_cli (JArr [JObj []]) = Ok (JStr "").
Proof. by vm_compute. Qed.

(** ** Further facts about the handler *)

Lemma posts_of_call (max_retries : nat) (initial_delay : Z)
    (upstream : nat → py response) (user_query : json) :
  (posts (effects (call_gemini_api max_retries initial_delay upstream user_query))
   ≤ max_retries)%nat.
Proof.
  destruct max_retries as [|n]; [done|].
  destruct (call_shape (S n) initial_delay upstream user_query) as (k & Hk & _ & _ & _ & ->);
    [lia|].
  cbn [effects]. rewrite posts_schedule. lia.
Qed.

Lemma asks_Some (get_json : py json) (q : string) :
  asks get_json = Some q →
  ∃ fields s, get_json = Ok (JObj fields) ∧ dict_lookup "query" fields = Some (JStr s)
              ∧ strip s ≠ "" ∧ q = strip s.
Proof.
  unfold asks. intros H. repeat case_match; simplify_eq.
  eexists _, _. split_and!; [done..| |done]. by apply String.eqb_neq.
Qed.

Lemma api_ask_not_asking (upstream : nat → py response) (get_json : py json) :
  asks get_json = None →
  ∃ status body,
    api_ask upstream get_json = IO (Ok (status, body)) [] ∧ error_body status body.
Proof.
  unfold asks, error_body. intros Hnone.
  destruct get_json as [data|e]; [|by eexists 500, _; split; [done|eauto]].
  destruct data as [| | | |?|fields]; try (by eexists 500, _; split; [done|eauto]).
  destruct (dict_lookup "query" fields) as [query|] eqn:Hquery.
  - destruct query as [| | |s| |];
      try (eexists 500, _; split; [unfold api_ask; cbn; by rewrite Hquery|eauto]).
    destruct (String.eqb_spec (strip s) "") as [Hblank|]; [|done].
    eexists 400, _. split; [|eauto]. apply api_ask_rejects. eauto.
  - eexists 400, _. split; [|eauto]. apply api_ask_rejects. eauto.
Qed.

(** X11: the handler never lets an exception out: for every request and
    every behaviour of upstream it returns status 200 with the three fields
    [query], [response] and [citations], or status 400 or 500 with a single
    [error] message, after at most [MAX_RETRIES] posts. *)
Theorem api_ask_always_answers (upstream : nat → py response) (get_json : py json) :
  ∃ status body,
    outcome (api_ask upstream get_json) = Ok (status, body)
    ∧ ((status = 200 ∧ ∃ user_query generated_text citations,
          (status, body) = ok_response user_query generated_text citations)
       ∨ error_body status body)
    ∧ (posts (effects (api_ask upstream get_json)) ≤ MAX_RETRIES)%nat.
Proof.
  destruct (asks get_json) as [q|] eqn:Hasks.
  - apply asks_Some in Hasks as (fields & s & -> & Hs & Hne & ->).
    destruct (call_never_raises MAX_RETRIES INITIAL_DELAY_SECONDS upstream (JStr (strip s)))
      as (text & sources & Hcall).
    pose proof (posts_of_call MAX_RETRIES INITIAL_DELAY_SECONDS upstream (JStr (strip s))) as Hposts.
    destruct (call_gemini_api MAX_RETRIES INITIAL_DELAY_SECONDS upstream (JStr (strip s)))
      as [result log] eqn:Hio.
    cbn in Hcall, Hposts. subst result.
    rewrite (api_ask_accepts upstream fields s text sources log Hs Hne Hio). cbn [outcome effects].
    destruct (format_citations_list sources) as [citations|e].
    + eexists _, _. split_and!; [done| |done]. left. split; [done|]. by eexists _, _, _.
    + eexists _, _. split_and!; [done| |done]. right. unfold error_body. eauto.
  - destruct (api_ask_not_asking upstream get_json Hasks) as (status & body & -> & Herr).
    exists status, body. split_and!; [done|by right|cbn; lia].
Qed.

(** X12: the handler contacts upstream exactly for a request whose body is
    an object with a [query] string that is not blank; what it then sends,
    in every post, is the payload of the trimmed query, and it sends and
    sleeps as the call for that query does.  For every other request the
    effect log is empty. *)
Theorem api_ask_sends_the_trimmed_query (upstream : nat → py response) (get_json : py json) :
  match asks get_json with
  | Some q =>
      effects (api_ask upstream get_json) =
      effects (call_gemini_api MAX_RETRIES INITIAL_DELAY_SECONDS upstream (JStr q))
      ∧ ∃ k, (k < MAX_RETRIES)%nat
           ∧ posted (effects (api_ask upstream get_json)) =
             replicate (S k) (get_base_payload (JStr q))
  | None => effects (api_ask upstream get_json) = []
  end.
Proof.
  destruct (asks get_json) as [q|] eqn:Hasks.
  - apply asks_Some in Hasks as (fields & s & -> & Hs & Hne & ->).
    destruct (call_never_raises MAX_RETRIES INITIAL_DELAY_SECONDS upstream (JStr (strip s)))
      as (text & sources & Hcall).
    destruct (posts_carry_the_query_aux MAX_RETRIES INITIAL_DELAY_SECONDS upstream
                (JStr (strip s))) as (k & Hk & Hposted); [unfold MAX_RETRIES; lia|].
    destruct (call_gemini_api MAX_RETRIES INITIAL_DELAY_SECONDS upstream (JStr (strip s)))
      as [result log] eqn:Hio.
    cbn in Hcall, Hposted. subst result.
    rewrite (api_ask_accepts upstream fields s text sources log Hs Hne Hio). cbn [effects].
    split; [done|]. by exists k.
  - by destruct (api_ask_not_asking upstream get_json Hasks) as (status & body & -> & _).
Qed.

(** ** The interactive loop *)

Example session_of_three_lines :
  (session (λ _ _, replies (grounded_answer "ready" sample_sources))
     [Line "  "; Line " status"; Line "QUIT"; Line "more"] 0).1 = Shutdown
  ∧ posted (net_log (session (λ _ _, replies (grounded_answer "ready" sample_sources))
                       [Line "  "; Line " status"; Line "QUIT"; Line "more"] 0).2)
    = [get_base_payload (JStr " status")].
Proof. split; reflexivity. Qed.

Example upper_model : upper MODEL = "GEMINI-2.5-FLASH-PREVIEW-05-20".
Proof. reflexivity. Qed.

Section LoopFacts.

Variable upstreams : nat → nat → py response.

Lemma net_log_app (t1 t2 : list cli_event) : net_log (t1 ++ t2) = net_log t1 ++ net_log t2.
Proof. apply omap_app. Qed.

Lemma net_log_Net (log : list event) : net_log (Net <$> log) = log.
Proof. induction log as [|ev log IH]; [done|]. cbn. f_equal. apply IH. Qed.

Lemma respond_net (user_input : string) (n : nat) :
  net_log (respond upstreams user_input n).2 =
  effects (call_gemini_api MAX_RETRIES INITIAL_DELAY_SECONDS (upstreams n) (JStr user_input)).
Proof.
  unfold respond. cbv zeta.
  generalize (effects (call_gemini_api MAX_RETRIES INITIAL_DELAY_SECONDS (upstreams n)
                         (JStr user_input))).
  intros log.
  assert (net_log (Print ("[" +:+ upper MODEL +:+ "] | Initializing sequence...")
                   :: (Net <$> log)) = log) as Hstarted by apply net_log_Net.
  destruct (outcome (call_gemini_api _ _ _ _)) as [[text sources]|e]; [|done].
  destruct (format_citations_cli sources); cbn [snd];
    rewrite !net_log_app, Hstarted; destruct (truthy text); cbn; by rewrite ?app_nil_r.
Qed.

Lemma respond_escapes (user_input : string) (n : nat) (e : exn) :
  (respond upstreams user_input n).1 = Some e ↔
  ∃ text sources,
    outcome (call_gemini_api MAX_RETRIES INITIAL_DELAY_SECONDS (upstreams n) (JStr user_input))
      = Ok (text, sources)
    ∧ format_citations_cli sources = Raise e.
Proof.
  unfold respond.
  destruct (call_never_raises MAX_RETRIES INITIAL_DELAY_SECONDS (upstreams n) (JStr user_input))
    as (text & sources & ->).
  destruct (format_citations_cli sources) as [out|e'] eqn:Hcli; cbn.
  - split; [done|]. intros (? & ? & [= <- <-] & ?). congruence.
  - split.
    + intros [= ->]. by exists text, sources.
    + intros (? & ? & [= <- <-] & ?). congruence.
Qed.

Lemma respond_under_contract (user_input : string) (n : nat) :
  (∀ i, (i < MAX_RETRIES)%nat → contract_ok (upstreams n i) = true) →
  (respond upstreams user_input n).1 = None.
Proof.
  intros Hcontract.
  destruct ((respond upstreams user_input n).1) as [e|] eqn:Hesc; [|done].
  apply respond_escapes in Hesc as (text & sources & Hcall & Hcli).
  destruct (call_shape MAX_RETRIES INITIAL_DELAY_SECONDS (upstreams n) (JStr user_input))
    as (k & Hk & _ & _ & _ & Hshape); [unfold MAX_RETRIES; lia|].
  rewrite Hshape in Hcall. cbn in Hcall.
  destruct (contract_ok_final MAX_RETRIES (upstreams n k) (Hcontract k Hk)) as (t & l & Heq & Hl).
  rewrite Heq in Hcall. simplify_eq.
  by rewrite format_citations_cli_render, (format_citations_list_ok l Hl) in Hcli.
Qed.

Lemma session_cut (pre : list console) : ∀ (n : nat) (stop : console) (rest : list console),
  match stop with Line s => is_exit s = true | CtrlC => True end →
  session upstreams (pre ++ stop :: rest) n = session upstreams (pre ++ [stop]) n.
Proof.
  induction pre as [|[s|] pre IH]; intros n stop rest Hstop; cbn [app session].
  - destruct stop as [s|]; [by rewrite Hstop|done].
  - destruct (is_exit s); [done|]. destruct (is_blank s).
    + by rewrite (IH n stop rest Hstop).
    + destruct ((respond upstreams s n).1); [done|]. by rewrite (IH (S n) stop rest Hstop).
  - done.
Qed.

Lemma session_ctrl_c (pre : list console) : ∀ (n : nat),
  session upstreams (pre ++ [CtrlC]) n = session upstreams pre n.
Proof.
  induction pre as [|[s|] pre IH]; intros n; cbn [app session]; [done| |done].
  destruct (is_exit s); [done|]. destruct (is_blank s).
  - by rewrite (IH n).
  - destruct ((respond upstreams s n).1); [done|]. by rewrite (IH (S n)).
Qed.

End LoopFacts.

(** X13: the loop reads nothing after an exit command or a Ctrl-C: what
    follows either of them in the input changes neither how the loop ends
    nor what it prints and sends; and a Ctrl-C at the prompt has the same
    effect as the end of the input there. *)
Theorem loop_stops_reading (upstreams : nat → nat → py response)
    (pre rest : list console) (stop : console) :
  match stop with Line s => is_exit s = true | CtrlC => True end →
  main_assistant_loop upstreams (pre ++ stop :: rest) =
  main_assistant_loop upstreams (pre ++ [stop])
  ∧ main_assistant_loop upstreams (pre ++ CtrlC :: rest) = main_assistant_loop upstreams pre.
Proof.
  intros Hstop. unfold main_assistant_loop.
  rewrite (session_cut upstreams pre 0 stop rest Hstop).
  by rewrite (session_cut upstreams pre 0 CtrlC rest I), session_ctrl_c.
Qed.

Lemma loop_stops_reading_witness :
  main_assistant_loop (λ _ _, unreachable "down") ([Line "status"] ++ Line "Exit" :: [Line "more"]) =
  main_assistant_loop (λ _ _, unreachable "down") ([Line "status"] ++ [Line "Exit"])
  ∧ main_assistant_loop (λ _ _, unreachable "down") ([Line "status"] ++ CtrlC :: [Line "more"])
    = main_assistant_loop (λ _ _, unreachable "down") [Line "status"].
Proof.
  apply (loop_stops_reading (λ _ _, unreachable "down") [Line "status"] [Line "more"]
           (Line "Exit")).
  reflexivity.
Defined.

Section SessionFacts.

Variable upstreams : nat → nat → py response.

Lemma posted_app (l1 l2 : list event) : posted (l1 ++ l2) = posted l1 ++ posted l2.
Proof. apply omap_app. Qed.

Lemma queries_of_line (s : string) (rest : list console) :
  is_exit s = false →
  queries_of (Line s :: rest) =
  (if is_blank s then [] else [s]) ++ queries_of rest.
Proof.
  intros Hexit. unfold queries_of. cbn [lines_read]. rewrite Hexit.
  destruct (is_blank s) eqn:Hblank.
  - by rewrite filter_cons_False by (by rewrite Hblank).
  - by rewrite filter_cons_True by done.
Qed.

Lemma session_posts (inputs : list console) : ∀ n,
  ∃ served ks,
    served `prefix_of` queries_of inputs
    ∧ length ks = length served
    ∧ Forall (λ k, (k < MAX_RETRIES)%nat) ks
    ∧ posted (net_log (session upstreams inputs n).2) = bursts served ks
    ∧ (served = queries_of inputs ∨ crashed (session upstreams inputs n).1 = true).
Proof.
  induction inputs as [|[s|] inputs IH]; intros n; cbn [session].
  - exists [], []. split_and!; [done|done|constructor|done|by left].
  - destruct (is_exit s) eqn:Hexit.
    { exists [], []. split_and!; [apply prefix_nil|done|constructor|done|].
      left. unfold queries_of. cbn. by rewrite Hexit. }
    rewrite (queries_of_line s inputs Hexit).
    destruct (is_blank s) eqn:Hblank.
    { destruct (IH n) as (served & ks & ? & ? & ? & ? & ?). by exists served, ks. }
    destruct (posts_carry_the_query_aux MAX_RETRIES INITIAL_DELAY_SECONDS (upstreams n) (JStr s))
      as (k & Hk & Hposted); [unfold MAX_RETRIES; lia|].
    rewrite <- respond_net in Hposted.
    destruct ((respond upstreams s n).1) as [e|]; cbn [fst snd].
    + exists [s], [k]. split_and!; [by apply prefix_cons, prefix_nil|done|by apply Forall_singleton| |by right].
      change (net_log (prompt :: ?t)) with (net_log t). rewrite Hposted.
      unfold bursts. cbn. by rewrite app_nil_r.
    + destruct (IH (S n)) as (served & ks & Hpre & Hlen & Hks & Hrest & Hall).
      exists (s :: served), (k :: ks).
      split_and!; [by apply prefix_cons|cbn; lia|by constructor| |].
      * change (net_log (prompt :: ?t)) with (net_log t).
        rewrite net_log_app, posted_app, Hposted, Hrest. done.
      * destruct Hall as [->|?]; [by left|by right].
  - exists [], []. split_and!; [done|done|constructor|done|by left].
Qed.

Lemma respond_no_prompt (s : string) (n : nat) :
  filter is_prompt (respond upstreams s n).2 = [].
Proof.
  unfold respond. cbv zeta.
  generalize (effects (call_gemini_api MAX_RETRIES INITIAL_DELAY_SECONDS (upstreams n) (JStr s))).
  intros log.
  assert (filter is_prompt (Print ("[" +:+ upper MODEL +:+ "] | Initializing sequence...")
                            :: (Net <$> log)) = []) as Hstarted.
  { rewrite filter_cons_False by (by intros []). induction log as [|ev log IH]; [done|].
    rewrite fmap_cons, filter_cons_False by (by intros []). done. }
  destruct (outcome (call_gemini_api _ _ _ _)) as [[text sources]|e]; [|done].
  destruct (format_citations_cli sources); cbn [snd];
    rewrite !filter_app, Hstarted; by destruct (truthy text).
Qed.

Lemma session_under_contract (inputs : list console) : ∀ n,
  (∀ m i, (i < MAX_RETRIES)%nat → contract_ok (upstreams m i) = true) →
  (session upstreams inputs n).1 = (if exits inputs then Shutdown else Interrupted)
  ∧ prompts (session upstreams inputs n).2 = S (length (lines_read inputs))
  ∧ last (session upstreams inputs n).2 =
    Some (Print (if exits inputs then shutdown_message else interrupted_message)).
Proof.
  intros n Hcontract. revert n.
  induction inputs as [|[s|] inputs IH]; intros n; cbn [session exits lines_read]; [done| |done].
  destruct (is_exit s); [done|]. cbn [orb].
  destruct (is_blank s).
  - destruct (IH n) as (Hend & Hprompts & Hlast). cbn [fst snd length].
    split_and!; [done| |].
    + unfold prompts in *. rewrite filter_cons_True by done. cbn. by rewrite Hprompts.
    + change (prompt :: ?t) with ([prompt] ++ t). by rewrite last_app, Hlast.
  - rewrite (respond_under_contract upstreams s n (Hcontract n)).
    destruct (IH (S n)) as (Hend & Hprompts & Hlast). cbn [fst snd length].
    split_and!; [done| |].
    + unfold prompts in *. rewrite filter_cons_True by done.
      rewrite filter_app, respond_no_prompt. cbn [app length]. by rewrite Hprompts.
    + change (prompt :: ?t ++ ?u) with ((prompt :: t) ++ u). by rewrite last_app, Hlast.
Qed.

End SessionFacts.

(** X14: what the loop sends upstream is, for each query in turn, one to
    [MAX_RETRIES] posts of the payload built from the line as typed, not
    trimmed; the queries are the lines read that are not blank, a line
    being read if no exit command and no Ctrl-C comes before it; blank
    lines and the exit command send nothing.  All queries are served unless
    an exception ends the loop. *)
Theorem loop_posts_the_lines_typed (upstreams : nat → nat → py response)
    (inputs : list console) :
  ∃ served ks,
    served `prefix_of` queries_of inputs
    ∧ length ks = length served
    ∧ Forall (λ k, (k < MAX_RETRIES)%nat) ks
    ∧ posted (net_log (main_assistant_loop upstreams inputs).2) = bursts served ks
    ∧ (served = queries_of inputs ∨ crashed (main_assistant_loop upstreams inputs).1 = true).
Proof.
  destruct (session_posts upstreams inputs 0) as (served & ks & ? & ? & ? & ? & ?).
  exists served, ks. unfold main_assistant_loop. cbn [fst snd].
  by rewrite net_log_app.
Qed.

(** X15: when every attempt of every call keeps to the upstream contract,
    no exception leaves the loop: it ends with the shutdown message if an
    exit command is read before any Ctrl-C and with the interruption
    message otherwise, and it has prompted once for every line read and
    once more. *)
Theorem loop_ends_cleanly_under_contract (upstreams : nat → nat → py response)
    (inputs : list console) :
  (∀ m i, (i < MAX_RETRIES)%nat → contract_ok (upstreams m i) = true) →
  (main_assistant_loop upstreams inputs).1 = (if exits inputs then Shutdown else Interrupted)
  ∧ prompts (main_assistant_loop upstreams inputs).2 = S (length (lines_read inputs))
  ∧ last (main_assistant_loop upstreams inputs).2 =
    Some (Print (if exits inputs then shutdown_message else interrupted_message)).
Proof.
  intros Hcontract.
  destruct (session_under_contract upstreams inputs 0 Hcontract) as (Hend & Hprompts & Hlast).
  unfold main_assistant_loop. cbn [fst snd]. split_and!; [done| |].
  - unfold prompts in *. by rewrite filter_app, length_app, Hprompts.
  - by rewrite last_app, Hlast.
Qed.

Lemma loop_ends_cleanly_under_contract_witness :
  (main_assistant_loop (λ _ _, unreachable "down") [Line ""; Line "status"; Line "quit"]).1
    = (if exits [Line ""; Line "status"; Line "quit"] then Shutdown else Interrupted)
  ∧ prompts (main_assistant_loop (λ _ _, unreachable "down")
               [Line ""; Line "status"; Line "quit"]).2
    = S (length (lines_read [Line ""; Line "status"; Line "quit"]))
  ∧ last (main_assistant_loop (λ _ _, unreachable "down")
            [Line ""; Line "status"; Line "quit"]).2 =
    Some (Print (if exits [Line ""; Line "status"; Line "quit"]
                 then shutdown_message else interrupted_message)).
Proof.
  apply (loop_ends_cleanly_under_contract (λ _ _, unreachable "down")
           [Line ""; Line "status"; Line "quit"]).
  intros m i _. reflexivity.
Defined.

(** X16: the loop has no handler for what the CLI formatter raises: if the
    call for the first query returns a source list with an entry the
    formatters do not accept, the exception leaves the loop, which ends
    there without reading further input; the exception is the one the
    structured formatter raises on that list. *)
Theorem loop_crashes_on_rejected_sources (upstreams : nat → nat → py response)
    (s : string) (rest : list console) (text : json) (l : list json) :
  is_exit s = false →
  is_blank s = false →
  outcome (call_gemini_api MAX_RETRIES INITIAL_DELAY_SECONDS (upstreams 0%nat) (JStr s))
    = Ok (text, JArr l) →
  forallb accepted l = false →
  ∃ e, format_citations_list (JArr l) = Raise e
       ∧ (main_assistant_loop upstreams (Line s :: rest)).1 = Crashed e
       ∧ main_assistant_loop upstreams (Line s :: rest) = main_assistant_loop upstreams [Line s].
Proof.
  intros Hexit Hblank Hcall Hrejected.
  destruct (format_citations_list (JArr l)) as [out|e] eqn:Hlist.
  { assert (forallb accepted l = true); [|congruence].
    apply (list_loop_accepts l ([], ∅)). unfold format_citations_list in Hlist. cbn in Hlist.
    destruct (for_each list_step ([], ∅) l); [by eexists|done]. }
  exists e. split; [done|].
  assert ((respond upstreams s 0).1 = Some e) as Hesc.
  { apply respond_escapes. exists text, (JArr l). split; [done|].
    by rewrite format_citations_cli_render, Hlist. }
  unfold main_assistant_loop. cbn [session]. by rewrite Hexit, Hblank, Hesc.
Qed.

Lemma loop_crashes_on_rejected_sources_witness :
  ∃ e, format_citations_list (JArr [JNull]) = Raise e
       ∧ (main_assistant_loop (λ _ _, replies (grounded_answer "ready" [JNull]))
            (Line "status" :: [Line "exit"])).1 = Crashed e
       ∧ main_assistant_loop (λ _ _, replies (grounded_answer "ready" [JNull]))
           (Line "status" :: [Line "exit"])
         = main_assistant_loop (λ _ _, replies (grounded_answer "ready" [JNull])) [Line "status"].
Proof.
  apply (loop_crashes_on_rejected_sources (λ _ _, replies (grounded_answer "ready" [JNull]))
           "status" [Line "exit"] (JStr "ready") [JNull]); reflexivity.
Defined.

(** ** End to end *)

(** X17: the number of posts of a call is decided by the transport failures
    alone: the call posts exactly [i + 1] times iff attempts [0 .. i-1] fail
    at transport level and attempt [i] either does not, or is the last one
    allowed. *)
Theorem posts_count_transport_failures (max_retries : nat) (initial_delay : Z)
    (upstream : nat → py response) (user_query : json) (i : nat) :
  (0 < max_retries)%nat →
  posts (effects (call_gemini_api max_retries initial_delay upstream user_query)) = S i
  ↔ (i < max_retries)%nat
    ∧ (∀ j, (j < i)%nat → transport_failure (upstream j))
    ∧ (transport_failure (upstream i) → (i + 1 = max_retries)%nat).
Proof.
  intros Hpos. split.
  - destruct (call_shape max_retries initial_delay upstream user_query Hpos)
      as (k & Hk & Hfail & Hend & _ & ->).
    cbn [effects]. rewrite posts_schedule. intros [= ->]. done.
  - intros (Hi & Hbefore & Hat).
    rewrite (call_ends_at max_retries initial_delay upstream user_query i Hi Hbefore Hat).
    cbn [effects]. by rewrite posts_schedule.
Qed.

Lemma posts_count_transport_failures_witness :
  posts (effects (call_gemini_api MAX_RETRIES INITIAL_DELAY_SECONDS
                    (two_failures_then (answer "ready")) (JStr "status"))) = 3%nat
  ↔ (2 < MAX_RETRIES)%nat
    ∧ (∀ j, (j < 2)%nat → transport_failure (two_failures_then (answer "ready") j))
    ∧ (transport_failure (two_failures_then (answer "ready") 2%nat) → (2 + 1 = MAX_RETRIES)%nat).
Proof.
  apply (posts_count_transport_failures MAX_RETRIES INITIAL_DELAY_SECONDS
           (two_failures_then (answer "ready")) (JStr "status") 2).
  unfold MAX_RETRIES. lia.
Defined.

Lemma extract_grounded_answer (text : string) (attributions : list json) :
  extract (grounded_answer text attributions) = Ok (JStr text, JArr attributions).
Proof. by destruct attributions. Qed.

(** X18: handler, call, extraction and formatter composed: for a request
    with a query that is not blank, if the first attempt that does not fail
    at transport level receives a body with one candidate carrying [text]
    and well-shaped attributions, the answer is status 200 with the trimmed
    query, that text, and the deduplicated citations in first-seen order. *)
Theorem api_ask_end_to_end (upstream : nat → py response) (get_json : py json)
    (q text : string) (attributions : list json) (i : nat) :
  asks get_json = Some q →
  (i < MAX_RETRIES)%nat →
  (∀ j, (j < i)%nat → transport_failure (upstream j)) →
  upstream i = replies (grounded_answer text attributions) →
  forallb attribution_ok attributions = true →
  api_ask upstream get_json =
  IO (Ok (ok_response (JStr q) (JStr text) (JArr (citation_of <$> first_seen attributions))))
     (schedule INITIAL_DELAY_SECONDS (get_base_payload (JStr q)) (S i)).
Proof.
  intros Hasks Hi Hbefore Hup Hok.
  apply asks_Some in Hasks as (fields & s & -> & Hs & Hne & ->).
  assert (try_block (upstream i) = Ok (JStr text, JArr attributions)) as Hblock.
  { rewrite Hup. cbn. apply extract_grounded_answer. }
  rewrite (api_ask_accepts upstream fields s (JStr text) (JArr attributions)
             (schedule INITIAL_DELAY_SECONDS (get_base_payload (JStr (strip s))) (S i)) Hs Hne).
  - by rewrite (format_citations_list_ok attributions Hok).
  - rewrite (call_ends_at MAX_RETRIES INITIAL_DELAY_SECONDS upstream (JStr (strip s)) i Hi Hbefore).
    + unfold final. by rewrite Hblock.
    + intros [d Hd]. congruence.
Qed.

Lemma api_ask_end_to_end_witness :
  api_ask (two_failures_then (grounded_answer "ready" sample_sources))
    (Ok (JObj [("query", JStr " status ")])) =
  IO (Ok (ok_response (JStr "status") (JStr "ready")
            (JArr (citation_of <$> first_seen sample_sources))))
     (schedule INITIAL_DELAY_SECONDS (get_base_payload (JStr "status")) 3).
Proof.
  apply (api_ask_end_to_end (two_failures_then (grounded_answer "ready" sample_sources))
           (Ok (JObj [("query", JStr " status ")])) "status" "ready" sample_sources 2).
  - reflexivity.
  - unfold MAX_RETRIES. lia.
  - intros j Hj. destruct j as [|[|j]]; [by exists "timed out"..|lia].
  - reflexivity.
  - reflexivity.
Defined.




Lemma rstrip_empty (s : string) : rstrip s = "" ↔ all_space s = true.
Proof.
  induction s as [|c s IH]; [done|]. cbn.
  destruct (rstrip s) eqn:Hr.
  - destruct (isspace c); cbn; [by rewrite <- IH|]. split; [done|done].
  - rewrite andb_true_iff, <- IH. split; [done|]. by intros [_ ?].
Qed.

Lemma all_space_lstrip (s : string) : all_space (lstrip s) = all_space s.
Proof.
  induction s as [|c s IH]; [done|]. cbn. destruct (isspace c) eqn:Hc; [done|].
  cbn. by rewrite Hc.
Qed.

(** A line is blank exactly when it is made of white space only. *)
Lemma is_blank_all_space (s : string) : is_blank s = all_space s.
Proof.
  unfold is_blank, strip. apply eq_true_iff_eq.
  by rewrite String.eqb_eq, rstrip_empty, all_space_lstrip.
Qed.






(** X20: status 400 is the answer to exactly the requests whose body is an
    object in which [query] is absent or is a string made of white space
    only (the empty string included); no other request, and no behaviour of
    upstream, leads to it. *)
Theorem status_400_means_blank_query (upstream : nat → py response) (get_json : py json) :
  (∃ body, outcome (api_ask upstream get_json) = Ok (400, body))
  ↔ ∃ fields, get_json = Ok (JObj fields)
              ∧ (dict_lookup "query" fields = None
                 ∨ ∃ s, dict_lookup "query" fields = Some (JStr s) ∧ all_space s = true).
Proof.
  split.
  - intros [body Hbody].
    destruct (asks get_json) as [q|] eqn:Hasks.
    { apply asks_Some in Hasks as (fields & s & -> & Hs & Hne & ->).
      destruct (call_never_raises MAX_RETRIES INITIAL_DELAY_SECONDS upstream (JStr (strip s)))
        as (text & sources & Hcall).
      destruct (call_gemini_api MAX_RETRIES INITIAL_DELAY_SECONDS upstream (JStr (strip s)))
        as [result log] eqn:Hio.
      cbn in Hcall. subst result.
      rewrite (api_ask_accepts upstream fields s text sources log Hs Hne Hio) in Hbody.
      cbn in Hbody. by destruct (format_citations_list sources). }
    unfold asks in Hasks.
    destruct get_json as [data|e]; [|done].
    destruct data as [| | | |?|fields]; try done.
    exists fields. split; [done|].
    destruct (dict_lookup "query" fields) as [query|] eqn:Hquery; [|by left].
    destruct query as [| | |s| |];
      try (unfold api_ask in Hbody; cbn in Hbody; rewrite Hquery in Hbody; by cbn in Hbody).
    right. exists s. split; [done|].
    rewrite <- is_blank_all_space. unfold is_blank. by destruct (String.eqb (strip s) "").
  - intros (fields & -> & Hblank). eexists.
    rewrite (api_ask_rejects upstream fields); [done|].
    destruct Hblank as [?|(s & Hs & Hspace)]; [by left|right].
    exists s. split; [done|].
    rewrite <- is_blank_all_space in Hspace. by apply String.eqb_eq.
Qed.
